(** * ESP32 NVS provisioning tool: a shallow embedding of [main.py]

    The program is orchestration code: it parses four command-line flags,
    keeps a small CSV key/value store per device under [certs/], and shells
    out to two external tools (the certificate-blob generator and the flashing
    tool).  The embedding below follows the source function by function.

    Environment model (everything the Python standard library and the
    operating system do for the program):
    - text is [string]; Python [str] methods are written out on it
      ([strip], [split], [startswith], ...), for ASCII text;
    - a file that holds text is represented by the list of records that
      [csv.reader] yields from it, and [csv.writer.writerow] at the end of
      the file adds one record (files written by [csv.writer] terminate
      every record, so this is what the append does); a file that is not
      decodable text is [Binary];
    - the file system is a finite map from resolved paths to nodes
      (directory or regular file); paths are resolved syntactically on [/]
      (POSIX), empty segments are dropped, and [.], [..] and links are not
      interpreted; permissions are not modelled;
    - an external process is an oracle [spawn] from a command line and the
      current file system to either an exception of the spawning call or a
      completed process (its output as decoded text, its exit code and the
      file system it leaves); time-outs and the scheduling of the two ends
      of a pipe are not modelled;
    - the operating system's random source is an oracle [urandom];
    - what the program prints and which commands it spawns is recorded, in
      order, in the trace of the world. *)

From stdpp Require Import gmap strings list fin_maps pretty.
From Stdlib Require Import ZArith Ascii.
From Stdlib.Strings Require Import Byte.

Local Open Scope Z_scope.

(** ** Python [str] operations *)

Module Str.

(** [str.isspace] on one ASCII character: TAB..CR, FS..US and space. *)
Definition isspace (c : ascii) : bool :=
  let n := N_of_ascii c in
  ((9 <=? n) && (n <=? 13) || (28 <=? n) && (n <=? 32))%N.

Definition is_empty (s : string) : bool :=
  match s with EmptyString => true | String _ _ => false end.

(** Python truthiness of a [str]. *)
Definition truthy (s : string) : bool := negb (is_empty s).

Fixpoint eqb (a b : string) : bool :=
  match a, b with
  | EmptyString, EmptyString => true
  | String x a', String y b' => Ascii.eqb x y && eqb a' b'
  | _, _ => false
  end.

(** [s.startswith(p)] *)
Fixpoint startswith (p s : string) : bool :=
  match p, s with
  | EmptyString, _ => true
  | String x p', String y s' => Ascii.eqb x y && startswith p' s'
  | String _ _, EmptyString => false
  end.

(** [s.endswith(c)] for a one-character suffix. *)
Fixpoint endswith_char (c : ascii) (s : string) : bool :=
  match s with
  | EmptyString => false
  | String x EmptyString => Ascii.eqb x c
  | String _ s' => endswith_char c s'
  end.

(** [sub in s] *)
Fixpoint contains (sub s : string) : bool :=
  startswith sub s ||
  match s with
  | EmptyString => false
  | String _ s' => contains sub s'
  end.

Fixpoint lstrip (s : string) : string :=
  match s with
  | EmptyString => EmptyString
  | String c s' => if isspace c then lstrip s' else s
  end.

Fixpoint rstrip (s : string) : string :=
  match s with
  | EmptyString => EmptyString
  | String c s' =>
      let r := rstrip s' in
      if isspace c && is_empty r then EmptyString else String c r
  end.

(** [s.strip()] *)
Definition strip (s : string) : string := lstrip (rstrip s).

Fixpoint rev_onto (acc s : string) : string :=
  match s with
  | EmptyString => acc
  | String c s' => rev_onto (String c acc) s'
  end.

(** The scan of [s.split(sep)] for a non-empty [sep]: [skip] counts the
    characters of a separator just matched that are still to be passed
    over, [acc] is the current piece, reversed. *)
Fixpoint split_go (sep : string) (skip : nat) (acc : string) (s : string)
  : list string :=
  match s with
  | EmptyString => [rev_onto EmptyString acc]
  | String c s' =>
      match skip with
      | S k => split_go sep k acc s'
      | O =>
          if startswith sep s
          then rev_onto EmptyString acc
                 :: split_go sep (Nat.pred (String.length sep)) EmptyString s'
          else split_go sep O (String c acc) s'
      end
  end.

(** [s.split(sep)] *)
Definition split (sep s : string) : list string :=
  split_go sep O EmptyString s.

(** [sep.join(pieces)] with the empty separator. *)
Fixpoint join (pieces : list string) : string :=
  match pieces with
  | [] => EmptyString
  | p :: ps => p +:+ join ps
  end.

End Str.

(** ** Paths ([posixpath]) *)

(** [os.path.join(a, *ps)] *)
Definition os_path_join (a : string) (ps : list string) : string :=
  fold_left
    (fun path b =>
       if Str.startswith "/" b then b
       else if Str.is_empty path || Str.endswith_char "/"%char path
            then path +:+ b
            else path +:+ "/" +:+ b)
    ps a.

(** A resolved path: whether it starts at the root, and its non-empty
    segments. *)
Definition rpath : Type := bool * list string.

Definition resolve (p : string) : rpath :=
  (Str.startswith "/" p,
   filter (fun seg => Str.truthy seg = true) (Str.split "/" p)).

(** ** File system, exceptions and the world *)

(** A record of a CSV file, as [csv.reader] yields it. *)
Definition row : Type := list string.

(** The content of a regular file: text (seen through [csv.reader]) or
    bytes that do not decode, with the message of the decoding error. *)
Inductive file_data : Type :=
| Text (records : list row)
| Binary (decode_message : string).

(** What a path can name. *)
Inductive node : Type :=
| Dir
| File (d : file_data).

Abbreviation filesystem := (gmap rpath node).

(** The node a resolved path names; the start of a path (working directory
    or root) is a directory. *)
Definition node_at (fs : filesystem) (k : rpath) : option node :=
  match k.2 with
  | [] => Some Dir
  | _ :: _ => fs !! k
  end.

(** The directory a resolved path lies in. *)
Definition parent (k : rpath) : rpath := (k.1, removelast k.2).

(** The Python exception classes the program can meet. *)
Inductive exn_class : Type :=
| FileNotFoundError
| IsADirectoryError
| NotADirectoryError
| FileExistsError
| OSError
| IndexError
| UnicodeDecodeError
| OtherException.

(** An exception: its class and [str(e)]. *)
Record exn : Type := MkExn { exn_cls : exn_class; exn_str : string }.

(** [isinstance(e, OSError)]; [IOError] is the same class. *)
Definition is_OSError (e : exn) : bool :=
  match exn_cls e with
  | FileNotFoundError | IsADirectoryError | NotADirectoryError
  | FileExistsError | OSError => true
  | IndexError | UnicodeDecodeError | OtherException => false
  end.

(** [isinstance(e, FileNotFoundError)] *)
Definition is_FileNotFoundError (e : exn) : bool :=
  match exn_cls e with
  | FileNotFoundError => true
  | _ => false
  end.

(** The outcome of a call: a value, or an exception on its way up. *)
Inductive result (A : Type) : Type :=
| Ret (a : A)
| Raise (e : exn).
Arguments Ret {A} a.
Arguments Raise {A} e.

(** What [subprocess] hands back for a process that was started and
    waited for. *)
Record completed : Type := MkCompleted {
  c_stdout : string;
  c_stderr : string;
  c_returncode : Z;
  c_fs : filesystem
}.

(** The oracles of the environment. *)
Record env : Type := MkEnv {
  spawn : list string -> filesystem -> result completed;
  urandom : nat -> byte
}.

(** What the program does to the outside, in order: one [print] to the
    standard output or to the standard error stream, the help text of the
    parser, and the request to start a process with a command line (recorded
    whether or not the executable is then found). *)
Inductive event : Type :=
| Stdout (text : string)
| Stderr (text : string)
| Help
| Exec (cmd : list string).

(** The state the program runs in: the files, the trace so far, and how
    many bytes of the random source were consumed. *)
Record world : Type := MkWorld {
  w_fs : filesystem;
  w_trace : list event;
  w_drawn : nat
}.

(** The world after one more event. *)
Definition emit (ev : event) (w : world) : world :=
  MkWorld (w_fs w) (w_trace w ++ [ev]) (w_drawn w).

(** The world with another file system. *)
Definition set_fs (fs : filesystem) (w : world) : world :=
  MkWorld fs (w_trace w) (w_drawn w).

(** The command lines spawned along a trace. *)
Definition execs (t : list event) : list (list string) :=
  omap (fun ev => match ev with Exec c => Some c | _ => None end) t.

(** What was printed on the standard error stream along a trace. *)
Definition stderr_of (t : list event) : list string :=
  omap (fun ev => match ev with Stderr s => Some s | _ => None end) t.

(** ** The monad of the program: state and exceptions *)

(** A computation: from a world to an outcome and the world it leaves. *)
Definition M (A : Type) : Type := world -> result A * world.

(** [return a] *)
Definition ret {A} (a : A) : M A := fun w => (Ret a, w).

(** [raise e] *)
Definition raise {A} (e : exn) : M A := fun w => (Raise e, w).

(** Sequencing; an exception skips what follows. *)
Definition bind {A B} (m : M A) (k : A -> M B) : M B :=
  fun w =>
    match m w with
    | (Ret a, w') => k a w'
    | (Raise e, w') => (Raise e, w')
    end.

(** [try: m except ... as e: h e]; a handler that does not match the
    exception raises it again. *)
Definition catch {A} (m : M A) (h : exn -> M A) : M A :=
  fun w =>
    match m w with
    | (Ret a, w') => (Ret a, w')
    | (Raise e, w') => h e w'
    end.

Notation "x <- m ;; k" := (bind m (fun x => k))
  (at level 100, m at next level, right associativity).
Notation "m ;;; k" := (bind m (fun _ => k))
  (at level 100, right associativity).

(** [if b: m] *)
Definition when (b : bool) (m : M unit) : M unit :=
  if b then m else ret tt.

(** [print(s)] *)
Definition print (s : string) : M unit := fun w => (Ret tt, emit (Stdout s) w).

(** [print(s, file=sys.stderr)] *)
Definition eprint (s : string) : M unit := fun w => (Ret tt, emit (Stderr s) w).

(** The newline character. *)
Definition nl : string := String "010"%char EmptyString.

(** [s] between single quotes, as the messages show paths and commands. *)
Definition quoted (s : string) : string := "'" +:+ s +:+ "'".

(** [os.path.exists] *)
Definition os_path_exists (p : string) : M bool :=
  fun w => (Ret (bool_decide (is_Some (node_at (w_fs w) (resolve p)))), w).

(** [str(e)] of an [OSError] on path [p]. *)
Definition errno_message (what p : string) : string :=
  what +:+ ": " +:+ quoted p.

(** [open(p, 'r+')]: the data of an existing regular file. *)
Definition open_rplus (p : string) : M file_data :=
  fun w =>
    match node_at (w_fs w) (resolve p) with
    | Some (File d) => (Ret d, w)
    | Some Dir =>
        (Raise (MkExn IsADirectoryError
                  (errno_message "[Errno 21] Is a directory" p)), w)
    | None =>
        (Raise (MkExn FileNotFoundError
                  (errno_message "[Errno 2] No such file or directory" p)), w)
    end.

(** [open(p, 'w')]: creates the file, or truncates it. *)
Definition open_w (p : string) : M unit :=
  fun w =>
    let k := resolve p in
    match node_at (w_fs w) k with
    | Some Dir =>
        (Raise (MkExn IsADirectoryError
                  (errno_message "[Errno 21] Is a directory" p)), w)
    | _ =>
        match node_at (w_fs w) (parent k) with
        | Some Dir => (Ret tt, set_fs (<[k := File (Text [])]> (w_fs w)) w)
        | Some (File _) =>
            (Raise (MkExn NotADirectoryError
                      (errno_message "[Errno 20] Not a directory" p)), w)
        | None =>
            (Raise (MkExn FileNotFoundError
                      (errno_message "[Errno 2] No such file or directory" p)),
             w)
        end
    end.

(** The records [csv.reader] yields from the data of a file. *)
Definition csv_reader (d : file_data) : M (list row) :=
  match d with
  | Text records => ret records
  | Binary msg => raise (MkExn UnicodeDecodeError msg)
  end.

(** [writer.writerow(r)] on the file open at [p], whose records [before]
    have all been read: the position is the end of the file. *)
Definition csv_writerow (p : string) (before : list row) (r : row) : M unit :=
  fun w =>
    (Ret tt, set_fs (<[resolve p := File (Text (before ++ [r]))]> (w_fs w)) w).

(** [writer.writerows(rs)] on the file just opened with ['w'] at [p]. *)
Definition csv_writerows (p : string) (rs : list row) : M unit :=
  fun w => (Ret tt, set_fs (<[resolve p := File (Text rs)]> (w_fs w)) w).

(** The path text of a resolved path, for messages. *)
Definition path_of_segments (abs : bool) (segs : list string) : string :=
  (if abs then "/" else "") +:+
  match segs with
  | [] => ""
  | s :: rest => fold_left (fun acc x => acc +:+ "/" +:+ x) rest s
  end.

(** [os.makedirs(p, exist_ok=True)], one path prefix after the other;
    directories made before a failure stay. *)
Fixpoint makedirs_go (abs : bool) (done todo : list string) (fs : filesystem)
  : result unit * filesystem :=
  match todo with
  | [] => (Ret tt, fs)
  | seg :: rest =>
      let k := (abs, done ++ [seg]) in
      match fs !! k with
      | Some Dir => makedirs_go abs (done ++ [seg]) rest fs
      | None => makedirs_go abs (done ++ [seg]) rest (<[k := Dir]> fs)
      | Some (File _) =>
          (Raise (match rest with
                  | [] =>
                      MkExn FileExistsError
                        (errno_message "[Errno 17] File exists"
                           (path_of_segments abs (done ++ [seg])))
                  | next :: _ =>
                      MkExn NotADirectoryError
                        (errno_message "[Errno 20] Not a directory"
                           (path_of_segments abs (done ++ [seg; next])))
                  end), fs)
      end
  end.

(** [os.makedirs(p, exist_ok=True)] *)
Definition os_makedirs (p : string) : M unit :=
  fun w =>
    let k := resolve p in
    let '(r, fs') := makedirs_go k.1 [] k.2 (w_fs w) in
    (r, set_fs fs' w).

(** ** [shlex.join] and [bytes.hex] *)

(** The double-quote character. *)
Definition dquote : ascii := "034"%char.

(** A character outside [[\w@%+=:,./-]] (ASCII). *)
Definition shlex_unsafe (c : ascii) : bool :=
  let n := N_of_ascii c in
  negb (((48 <=? n) && (n <=? 57)          (* 0-9 *)
         || (65 <=? n) && (n <=? 90)       (* A-Z *)
         || (97 <=? n) && (n <=? 122)      (* a-z *)
         || (n =? 95)                      (* _ *)
         || (n =? 64) || (n =? 37) || (n =? 43) || (n =? 61)   (* @ % + = *)
         || (n =? 58) || (n =? 44) || (n =? 46) || (n =? 47)   (* : , . / *)
         || (n =? 45))%N).                 (* - *)

(** [_find_unsafe(s) is not None] *)
Fixpoint has_unsafe (s : string) : bool :=
  match s with
  | EmptyString => false
  | String c s' => shlex_unsafe c || has_unsafe s'
  end.

(** [s.replace("'", "'" + '"' + "'" + '"' + "'")] *)
Fixpoint escape_single_quotes (s : string) : string :=
  match s with
  | EmptyString => EmptyString
  | String c s' =>
      if Ascii.eqb c "'"%char
      then String "'" (String dquote (String "'" (String dquote
             (String "'" (escape_single_quotes s')))))
      else String c (escape_single_quotes s')
  end.

(** [shlex.quote(s)] *)
Definition shlex_quote (s : string) : string :=
  if Str.is_empty s then "''"
  else if has_unsafe s then quoted (escape_single_quotes s)
  else s.

(** [sep.join(l)] *)
Fixpoint join_with (sep : string) (l : list string) : string :=
  match l with
  | [] => ""
  | [x] => x
  | x :: rest => x +:+ sep +:+ join_with sep rest
  end.

(** [shlex.join(cmd)] *)
Definition shlex_join (cmd : list string) : string :=
  join_with " " (map shlex_quote cmd).

(** The lower-case hexadecimal digit of a number below 16. *)
Definition hex_digit (n : N) : ascii :=
  if (n <? 10)%N then ascii_of_N (48 + n) else ascii_of_N (87 + n).

(** The two hexadecimal digits of a byte. *)
Definition byte_hex (b : byte) : string :=
  let n := Byte.to_N b in
  String (hex_digit (n / 16)) (String (hex_digit (n mod 16)) EmptyString).

(** [bytes.hex()] *)
Definition hex (bs : list byte) : string := Str.join (map byte_hex bs).

(** ** [grep] on the text of a pipe *)

(** The lines of a text; a final newline does not start another line. *)
Definition text_lines (s : string) : list string :=
  let pieces := Str.split nl s in
  match last pieces with
  | Some EmptyString => removelast pieces
  | _ => pieces
  end.

(** [grep pat]: the lines that contain [pat], each with its newline. *)
Definition grep (pat text : string) : string :=
  Str.join
    (map (fun l => l +:+ nl)
       (filter (fun l => Str.contains pat l = true) (text_lines text))).

(** ** The program *)

(** [l[i]] on a Python list. *)
Definition py_index (l : list string) (i : nat) : M string :=
  match l !! i with
  | Some x => ret x
  | None => raise (MkExn IndexError "list index out of range")
  end.

(** Truthiness of an [Optional[str]]. *)
Definition truthy_opt (o : option string) : bool :=
  match o with
  | Some s => Str.truthy s
  | None => false
  end.

(** The value of an [Optional[str]] that was tested to be there. *)
Definition the (o : option string) : string := default "" o.

(** The namespace [argparse] returns. *)
Record args : Type := MkArgs {
  a_generate : bool;
  a_port : option string;
  a_mac : option string;
  a_hv : option string
}.

(** The module constants (main.py, lines 14-20). *)
Definition KEY_SIZE_BYTES : nat := 16.

Definition PYTHON : string := "python3".

Definition ESP_CMD : list string := [PYTHON; "-m"; "esptool"].

Definition files_to_create : list string :=
  ["device.pem.crt"; "private.pem.key"; "nvs.csv"].

(** [parser.print_help()] *)
Definition print_help : M unit := fun w => (Ret tt, emit Help w).

(** The device folder name: ["".join(device_mac.strip().split(':'))] *)
Definition mac_folder (device_mac : string) : string :=
  Str.join (Str.split ":" (Str.strip device_mac)).

Section Program.

Context (E : env).

(** Starting a process and waiting for it ([subprocess.run], or [Popen]
    and [wait]): the command line is recorded, and a process that ran
    leaves its file system. *)
Definition run_process (cmd : list string) : M completed :=
  fun w =>
    let w1 := emit (Exec cmd) w in
    match spawn E cmd (w_fs w) with
    | Ret c => (Ret c, set_fs (c_fs c) w1)
    | Raise e => (Raise e, w1)
    end.

(** [secrets.token_bytes(n)] *)
Definition token_bytes (n : nat) : M (list byte) :=
  fun w =>
    (Ret (map (urandom E) (seq (w_drawn w) n)),
     MkWorld (w_fs w) (w_trace w) (w_drawn w + n)%nat).

(** [execute_command] (main.py, lines 23-82).  [shlex.join] is there
    (Python 3.8 or later), so the fallback of the verbose print is not taken. *)
Definition execute_command (command_list : list string) (verbose : bool)
  : M Z :=
  if bool_decide (command_list = []) then
    eprint "Error: No command provided." ;;;
    ret 1
  else
    when verbose (print ("[*] Executing: " +:+ shlex_join command_list)) ;;;
    catch
      (result <- run_process command_list ;;
       when (Str.truthy (c_stdout result))
         (print (nl +:+ "--- Standard Output ---") ;;;
          print (Str.strip (c_stdout result))) ;;;
       when (Str.truthy (c_stderr result))
         (eprint (nl +:+ "--- Standard Error ---") ;;;
          eprint (Str.strip (c_stderr result))) ;;;
       when verbose
         (print (nl +:+ "[*] Command finished with exit code: "
                 +:+ pretty (c_returncode result))) ;;;
       ret (c_returncode result))
      (fun e =>
         if is_FileNotFoundError e then
           eprint ("Error: Command not found: "
                   +:+ quoted (hd "" command_list)) ;;;
           ret 1
         else
           eprint ("An unexpected error occurred: " +:+ exn_str e) ;;;
           ret 1).

(** [generate_aes_key] (main.py, lines 84-95). *)
Definition generate_aes_key (key_length_bytes : nat) : M (list byte) :=
  token_bytes key_length_bytes.

(** [for row in reader: if row[0] == key: ... return]: whether the loop
    found the key; an empty record makes [row[0]] raise. *)
Fixpoint scan_for_key (key : string) (rows : list row) : M bool :=
  match rows with
  | [] => ret false
  | r :: rest =>
      c <- py_index r 0 ;;
      if Str.eqb c key then ret true else scan_for_key key rest
  end.

(** The two [except] clauses of the insertions: [IOError] first, then any
    other [Exception]. *)
Definition csv_write_failed (filepath : string) (e : exn) : M unit :=
  if is_OSError e then
    eprint ("Error: Could not write to CSV file " +:+ quoted filepath
            +:+ ". Reason: " +:+ exn_str e)
  else
    eprint ("An unexpected error occurred: " +:+ exn_str e).

(** The [try] block of [put_hardware_version] (main.py, lines 99-116). *)
Definition put_hardware_version_body (filepath version : string) : M unit :=
  csvfile <- open_rplus filepath ;;
  rows <- csv_reader csvfile ;;
  found <- scan_for_key "hv" rows ;;
  if found then
    print "Hardware version key already exists!"
  else
    let row_to_append := ["hv"; "data"; "string"; version] in
    csv_writerow filepath rows row_to_append.

(** [put_hardware_version] (main.py, lines 97-123). *)
Definition put_hardware_version (filepath version : string) : M unit :=
  catch (put_hardware_version_body filepath version)
        (csv_write_failed filepath).

(** The [try] block of [put_aes_key] (main.py, lines 127-148). *)
Definition put_aes_key_body (filepath : string) : M unit :=
  csvfile <- open_rplus filepath ;;
  rows <- csv_reader csvfile ;;
  found <- scan_for_key "aes_key" rows ;;
  if found then
    print "AES key already exists!"
  else
    key <- generate_aes_key KEY_SIZE_BYTES ;;
    let aes_key := hex key in
    print ("AES Key: " +:+ aes_key) ;;;
    let row_to_append := ["aes_key"; "data"; "string"; aes_key] in
    csv_writerow filepath rows row_to_append.

(** [put_aes_key] (main.py, lines 125-155). *)
Definition put_aes_key (filepath : string) : M unit :=
  catch (put_aes_key_body filepath) (csv_write_failed filepath).

(** The command line of the certificate-blob generator. *)
Definition generator_cmd (mac_path csv_path : string) : list string :=
  [PYTHON; "cert_gen.py"; "generate"; csv_path;
   os_path_join mac_path ["certs.bin"]; "16384"].

(** [generate_cert_bin] (main.py, lines 157-190). *)
Definition generate_cert_bin (device_mac version : string) : M Z :=
  catch
    (let mac := mac_folder device_mac in
     let mac_path := os_path_join "certs" [mac] in
     let csv_path := os_path_join mac_path ["nvs.csv"] in
     print ("csv: " +:+ csv_path) ;;;
     present <- os_path_exists csv_path ;;
     (if negb present
      then raise (MkExn FileNotFoundError "csv file not found")
      else ret tt) ;;;
     put_aes_key csv_path ;;;
     put_hardware_version csv_path version ;;;
     let cmd := generator_cmd mac_path csv_path in
     print ("Generating certificate for " +:+ mac_path +:+ "...") ;;;
     exit_code <- execute_command cmd true ;;
     ret exit_code)
    (fun e =>
       if is_FileNotFoundError e then
         print ("Error: " +:+ exn_str e) ;;;
         print "Suggestion: Generate device folder first" ;;;
         print "Commands:" ;;;
         print "- (auto-detect) python main.py --port <port> -g" ;;;
         print "- (manual)      python main.py --mac <mac> -g" ;;;
         ret 1
       else raise e).

(** The command line of the flashing tool. *)
Definition flash_cmd (port bin_file : string) : list string :=
  ESP_CMD ++ ["--port"; port; "--baud"; "115200"; "write_flash"; "0x9000";
              bin_file].

(** [flash_nvs] (main.py, lines 192-215). *)
Definition flash_nvs (device_mac port : string) : M Z :=
  catch
    (let mac := mac_folder device_mac in
     let bin_file := os_path_join "certs" [mac; "certs.bin"] in
     present <- os_path_exists bin_file ;;
     (if negb present
      then raise (MkExn FileNotFoundError
                    ("Binary file " +:+ quoted bin_file +:+ " not found."))
      else ret tt) ;;;
     let cmd := flash_cmd port bin_file in
     print ("Flashing " +:+ quoted bin_file
            +:+ " to offset 0x9000 on port " +:+ port +:+ "...") ;;;
     code <- execute_command cmd true ;;
     ret code)
    (fun e =>
       if is_FileNotFoundError e then
         print ("Error: " +:+ exn_str e) ;;;
         ret 1
       else raise e).

(** One round of the loop over [file_names]: whether the file was made. *)
Definition create_empty_file (file_path : string) : M bool :=
  catch
    (open_w file_path ;;;
     print ("  - Created empty file: " +:+ quoted file_path) ;;;
     ret true)
    (fun e =>
       if is_OSError e then
         eprint ("  - Error: Could not create file " +:+ quoted file_path
                 +:+ ". Reason: " +:+ exn_str e) ;;;
         ret false
       else
         eprint ("  - An unexpected error occurred creating file "
                 +:+ quoted file_path +:+ ": " +:+ exn_str e) ;;;
         ret false).

(** The loop over [file_names] (main.py, lines 236-259). *)
Fixpoint create_files (folder_path : string) (file_names : list string)
  (all_files_created : bool) : M bool :=
  match file_names with
  | [] => ret all_files_created
  | filename :: rest =>
      let file_path := os_path_join folder_path [filename] in
      created <- create_empty_file file_path ;;
      create_files folder_path rest (all_files_created && created)
  end.

(** The four records written to the designated file. *)
Definition scaffold_rows (folder_path : string) : list row :=
  let priv_key_path := os_path_join folder_path ["private.pem.key"] in
  let cert_path := os_path_join folder_path ["device.pem.crt"] in
  [ ["key"; "type"; "encoding"; "value"];
    ["certs"; "namespace"; ""; ""];
    ["priv_key"; "file"; "string"; priv_key_path];
    ["certificate"; "file"; "string"; cert_path] ].

(** [create_folder_and_files] (main.py, lines 217-288).  The designated
    file is opened outside any [try], so an exception there goes up. *)
Definition create_folder_and_files (device_mac : string)
  (file_names : list string) (target_file_for_content : option string)
  : M bool :=
  let mac := mac_folder device_mac in
  let folder_path := os_path_join "certs" [mac] in
  made <-
    catch
      (os_makedirs folder_path ;;;
       print ("Successfully ensured folder exists: " +:+ quoted folder_path) ;;;
       ret true)
      (fun e =>
         if is_OSError e then
           eprint ("Error: Could not create folder " +:+ quoted folder_path
                   +:+ ". Reason: " +:+ exn_str e) ;;;
           ret false
         else
           eprint ("An unexpected error occurred creating folder "
                   +:+ quoted folder_path +:+ ": " +:+ exn_str e) ;;;
           ret false) ;;
  if negb made then ret false
  else
    all_files_created <- create_files folder_path file_names true ;;
    when (truthy_opt target_file_for_content
          && negb (bool_decide (the target_file_for_content ∈ file_names)))
      (eprint ("Warning: Target file "
               +:+ quoted (the target_file_for_content)
               +:+ " for content was specified but is not in the list of files to create.")) ;;;
    (if truthy_opt target_file_for_content then
       let file_path :=
         os_path_join folder_path [the target_file_for_content] in
       open_w file_path ;;;
       csv_writerows file_path (scaffold_rows folder_path) ;;;
       print "Written 'nvs.csv'"
     else ret tt) ;;;
    ret all_files_created.

(** The command line of MAC discovery. *)
Definition read_mac_cmd (port : string) : list string :=
  ESP_CMD ++ ["--port"; port; "read_mac"].

(** [get_mac_address] (main.py, lines 290-315).  The flashing tool's
    standard output is piped through [grep "MAC:"]; [grep] itself is the
    pure filter above, and what the tool writes to its error stream goes
    past the program. *)
Definition get_mac_address (port : string) : M (option string) :=
  let cmd := read_mac_cmd port in
  p1 <- run_process cmd ;;
  if c_returncode p1 =? 0 then
    let stdout := grep "MAC:" (c_stdout p1) in
    if Str.truthy stdout then
      piece <- py_index (Str.split "MAC: " stdout) 1 ;;
      let mac := Str.strip piece in
      ret (Some mac)
    else
      print "NO MAC Found!" ;;;
      ret None
  else ret None.

(** [str(b)] of a Python [bool]. *)
Definition py_bool (b : bool) : string := if b then "True" else "False".

(** [main] (main.py, lines 317-396), from the parsed arguments on. *)
Definition main (a : args) : M unit :=
  print "--- Arguments ---" ;;;
  print ("Port:    " +:+ default "Not specified" (a_port a)) ;;;
  print ("MAC:     " +:+ default "Not specified" (a_mac a)) ;;;
  print ("Generate: " +:+ py_bool (a_generate a)) ;;;
  print "------------------------" ;;;
  if truthy_opt (a_port a) && truthy_opt (a_mac a) && truthy_opt (a_hv a) then
    code <- generate_cert_bin (the (a_mac a)) (the (a_hv a)) ;;
    print "" ;;;
    if code =? 0 then
      _ <- flash_nvs (the (a_mac a)) (the (a_port a)) ;; ret tt
    else ret tt
  else if truthy_opt (a_port a) && truthy_opt (a_hv a) then
    mac <- get_mac_address (the (a_port a)) ;;
    if truthy_opt mac then
      print ("MAC: " +:+ the mac) ;;;
      code <- generate_cert_bin (the mac) (the (a_hv a)) ;;
      if code =? 0 then
        _ <- flash_nvs (the mac) (the (a_port a)) ;; ret tt
      else ret tt
    else print "Device Not Connected!"
  else if a_generate a && truthy_opt (a_mac a) then
    _ <- create_folder_and_files (the (a_mac a)) files_to_create
           (last files_to_create) ;;
    ret tt
  else if a_generate a && truthy_opt (a_port a) then
    mac <- get_mac_address (the (a_port a)) ;;
    if truthy_opt mac then
      print ("MAC: " +:+ the mac) ;;;
      _ <- create_folder_and_files (the mac) files_to_create
             (last files_to_create) ;;
      ret tt
    else print "Device Not Connected!"
  else if truthy_opt (a_port a) then
    _ <- get_mac_address (the (a_port a)) ;; ret tt
  else
    print_help.

End Program.

(** ** Vocabulary of the properties *)

(** A plain file name: not empty and without a separator. *)
Definition plain_name (name : string) : Prop :=
  Str.split "/" name = [name] /\ Str.truthy name = true.

(** The first column of a record is [key]. *)
Definition first_column_is (key : string) (r : row) : Prop :=
  head r = Some key.

(** A record has a first column, and it is not [key]. *)
Definition first_column_differs (key : string) (r : row) : Prop :=
  exists c rest, r = c :: rest /\ c <> key.

(** The two insertions into the store. *)
Inductive insertion : Type :=
| AesKey
| HardwareVersion (version : string).

(** The key an insertion looks for and writes. *)
Definition target_key (ins : insertion) : string :=
  match ins with
  | AesKey => "aes_key"
  | HardwareVersion _ => "hv"
  end.

(** The source function of an insertion. *)
Definition insert_row (E : env) (ins : insertion) (filepath : string)
  : M unit :=
  match ins with
  | AesKey => put_aes_key E filepath
  | HardwareVersion version => put_hardware_version filepath version
  end.

(** The value column of the record an insertion writes in world [w]. *)
Definition inserted_value (E : env) (ins : insertion) (w : world) : string :=
  match ins with
  | AesKey => hex (map (urandom E) (seq (w_drawn w) KEY_SIZE_BYTES))
  | HardwareVersion version => version
  end.

(** The device folder [certs/<mac without colons>], as the program builds
    it. *)
Definition device_folder (device_mac : string) : string :=
  os_path_join "certs" [mac_folder device_mac].

(** [certs/<mac without colons>/nvs.csv], as [generate_cert_bin] builds it. *)
Definition store_path (device_mac : string) : string :=
  os_path_join (device_folder device_mac) ["nvs.csv"].

(** [certs/<mac without colons>/certs.bin], as [flash_nvs] builds it. *)
Definition blob_path (device_mac : string) : string :=
  os_path_join "certs" [mac_folder device_mac; "certs.bin"].

(** A path names something in the file system of a world. *)
Definition exists_in (w : world) (p : string) : Prop :=
  is_Some (node_at (w_fs w) (resolve p)).

(** What [execute_command] prints on the error stream for a process that
    ran, and for a spawning call that raised. *)
Definition ran_report (c : completed) : list string :=
  if Str.truthy (c_stderr c)
  then [nl +:+ "--- Standard Error ---"; Str.strip (c_stderr c)]
  else [].

(** The line printed for a missing executable. *)
Definition not_found_report (cmd : list string) : string :=
  "Error: Command not found: " +:+ quoted (hd "" cmd).

(** The line printed when the spawning call raised. *)
Definition spawn_failure_report (cmd : list string) (e : exn) : string :=
  if is_FileNotFoundError e then not_found_report cmd
  else "An unexpected error occurred: " +:+ exn_str e.

(** What the generation workflow prints when the store is missing. *)
Definition missing_store_messages (device_mac : string) : list event :=
  [ Stdout ("csv: " +:+ store_path device_mac);
    Stdout "Error: csv file not found";
    Stdout "Suggestion: Generate device folder first";
    Stdout "Commands:";
    Stdout "- (auto-detect) python main.py --port <port> -g";
    Stdout "- (manual)      python main.py --mac <mac> -g" ].

(** What the flash workflow prints when the blob is missing. *)
Definition missing_blob_message (device_mac : string) : event :=
  Stdout ("Error: Binary file " +:+ quoted (blob_path device_mac)
          +:+ " not found.").

(** ** Concrete environments and worlds, for the examples *)

Module Sample.

Definition mac : string := "AA:BB:CC:DD:EE:FF".

Definition folder : string := "certs/AABBCCDDEEFF".

Definition store : string := "certs/AABBCCDDEEFF/nvs.csv".

Definition blob : string := "certs/AABBCCDDEEFF/certs.bin".

(** Every process runs, prints nothing, leaves the files alone and
    exits with [code]. *)
Definition env_exit (code : Z) : env :=
  MkEnv (fun _ fs => Ret (MkCompleted "" "" code fs)) (fun _ => x00).

(** No executable is found. *)
Definition env_missing : env :=
  MkEnv (fun cmd _ =>
           Raise (MkExn FileNotFoundError
                    (errno_message "[Errno 2] No such file or directory"
                       (hd "" cmd))))
        (fun _ => x00).

(** The flashing tool prints [out] and exits with 0. *)
Definition env_prints (out : string) : env :=
  MkEnv (fun _ fs => Ret (MkCompleted out "" 0 fs)) (fun _ => x00).


Definition empty_world : world := MkWorld ∅ [] 0.

(** The device folder as the scaffolding leaves it. *)
Definition scaffolded_fs : filesystem :=
  <[resolve store := File (Text (scaffold_rows folder))]>
    (<[resolve "certs/AABBCCDDEEFF/private.pem.key" := File (Text [])]>
       (<[resolve "certs/AABBCCDDEEFF/device.pem.crt" := File (Text [])]>
          (<[resolve folder := Dir]> (<[resolve "certs" := Dir]> ∅)))).

Definition scaffolded : world := MkWorld scaffolded_fs [] 0.

(** A store that already has both keys. *)
Definition provisioned_rows : list row :=
  scaffold_rows folder
  ++ [ ["aes_key"; "data"; "string"; "000102030405060708090a0b0c0d0e0f"];
       ["hv"; "data"; "string"; "0.9"] ].

Definition provisioned : world :=
  MkWorld (<[resolve store := File (Text provisioned_rows)]> scaffolded_fs)
    [] 0.

(** A store with a blank line after the header. *)
Definition blank_line_rows : list row :=
  [ ["key"; "type"; "encoding"; "value"]; [] ].

Definition blank_line : world :=
  MkWorld (<[resolve store := File (Text blank_line_rows)]> scaffolded_fs)
    [] 0.

End Sample.

(** ** Vocabulary of the workflow properties *)

(** The body of an insertion, before its [except] clauses. *)
Definition insert_row_body (E : env) (ins : insertion) (filepath : string)
  : M unit :=
  match ins with
  | AesKey => put_aes_key_body E filepath
  | HardwareVersion version => put_hardware_version_body filepath version
  end.

(** The message the [except] clauses of an insertion print. *)
Definition csv_failure_message (filepath : string) (e : exn) : string :=
  if is_OSError e
  then "Error: Could not write to CSV file " +:+ quoted filepath
       +:+ ". Reason: " +:+ exn_str e
  else "An unexpected error occurred: " +:+ exn_str e.

(** The behaviours [main] chooses between. *)
Inductive workflow : Type :=
| GenerateFlashExplicit
| GenerateFlashAuto
| ScaffoldExplicit
| ScaffoldAuto
| DiscoverOnly
| ShowHelp.

(** The behaviour for each combination of flags; a flag is given when its
    value is a non-empty string (columns: port, mac, hv, generate). *)
Definition selected (a : args) : workflow :=
  match truthy_opt (a_port a), truthy_opt (a_mac a), truthy_opt (a_hv a),
        a_generate a with
  | true,  true,  true,  _     => GenerateFlashExplicit
  | true,  false, true,  _     => GenerateFlashAuto
  | true,  true,  false, true  => ScaffoldExplicit
  | false, true,  _,     true  => ScaffoldExplicit
  | true,  false, false, true  => ScaffoldAuto
  | true,  _,     false, false => DiscoverOnly
  | false, true,  _,     false => ShowHelp
  | false, false, _,     _     => ShowHelp
  end.

(** The four combinations the specification names: those that select a
    generate-then-flash or a scaffolding workflow. *)
Definition recognized (a : args) : bool :=
  match selected a with
  | GenerateFlashExplicit | GenerateFlashAuto
  | ScaffoldExplicit | ScaffoldAuto => true
  | DiscoverOnly | ShowHelp => false
  end.

(** What [main] prints before it chooses. *)
Definition banner (a : args) : list event :=
  [ Stdout "--- Arguments ---";
    Stdout ("Port:    " +:+ default "Not specified" (a_port a));
    Stdout ("MAC:     " +:+ default "Not specified" (a_mac a));
    Stdout ("Generate: " +:+ py_bool (a_generate a));
    Stdout "------------------------" ].

(** Generation, and the flash step when the generation returned 0. *)
Definition generate_then_flash (E : env) (device_mac version port : string)
  (blank_line : bool) : M unit :=
  code <- generate_cert_bin E device_mac version ;;
  when blank_line (print "") ;;;
  if code =? 0 then _ <- flash_nvs E device_mac port ;; ret tt else ret tt.

(** Scaffolding, as [main] calls it. *)
Definition scaffold (device_mac : string) : M unit :=
  _ <- create_folder_and_files device_mac files_to_create (Some "nvs.csv") ;;
  ret tt.

(** A workflow on the MAC that discovery returns; nothing but a message
    when there is none. *)
Definition with_discovered_mac (E : env) (port : string)
  (k : string -> M unit) : M unit :=
  mac <- get_mac_address E port ;;
  if truthy_opt mac
  then print ("MAC: " +:+ the mac) ;;; k (the mac)
  else print "Device Not Connected!".

(** The program of each behaviour, from the source functions. *)
Definition behaviour (E : env) (wf : workflow) (a : args) : M unit :=
  let port := the (a_port a) in
  match wf with
  | GenerateFlashExplicit =>
      generate_then_flash E (the (a_mac a)) (the (a_hv a)) port true
  | GenerateFlashAuto =>
      with_discovered_mac E port
        (fun mac => generate_then_flash E mac (the (a_hv a)) port false)
  | ScaffoldExplicit => scaffold (the (a_mac a))
  | ScaffoldAuto => with_discovered_mac E port scaffold
  | DiscoverOnly => _ <- get_mac_address E port ;; ret tt
  | ShowHelp => print_help
  end.

(** The command lines of the end-to-end example. *)
Definition example_generator_cmd : list string :=
  ["python3"; "cert_gen.py"; "generate"; "certs/AABBCCDDEEFF/nvs.csv";
   "certs/AABBCCDDEEFF/certs.bin"; "16384"].



(** The flags of the example: port, MAC and hardware version given. *)
Definition example_args (port : string) (g : bool) : args :=
  MkArgs g (Some port) (Some "AA:BB:CC:DD:EE:FF") (Some "1.0").


(** Outputs of the flashing tool's [read_mac], for the examples. *)
Definition read_mac_output : string :=
  "Chip is ESP32-D0WD" +:+ nl +:+ "MAC: aa:bb:cc:dd:ee:ff" +:+ nl
  +:+ "Uploading stub..." +:+ nl +:+ "MAC: aa:bb:cc:dd:ee:ff" +:+ nl.

(** An output with [MAC:] but without the marker [MAC: ]. *)
Definition read_mac_output_no_space : string :=
  "MAC:aa:bb:cc:dd:ee:ff" +:+ nl.

(** ** Vocabulary of the scaffolding property *)

(** The node is a regular file. *)
Definition is_file (o : option node) : bool :=
  match o with
  | Some (File _) => true
  | _ => false
  end.

(** The node is a directory. *)
Definition is_dir (o : option node) : bool :=
  match o with
  | Some Dir => true
  | _ => false
  end.

(** No regular file stands where the directories of a resolved path have
    to be. *)
Definition dirs_creatable (fs : filesystem) (k : rpath) : bool :=
  forallb (fun n => negb (is_file (fs !! (k.1, take n k.2))))
    (seq 1 (length k.2)).

(** No directory stands where the file [p] has to be. *)
Definition file_creatable (fs : filesystem) (p : string) : bool :=
  negb (is_dir (node_at fs (resolve p))).

(** The resolved path of a file of a folder. *)
Definition file_key (folder name : string) : rpath :=
  ((resolve folder).1, (resolve folder).2 ++ [name]).

(** The file system after empty files were made for [names] in order. *)
Definition with_empty_files (folder : string) (names : list string)
  (fs : filesystem) : filesystem :=
  fold_left (fun acc name => <[file_key folder name := File (Text [])]> acc)
    names fs.

(** The file system the scaffolding leaves, from the one with the
    directories made. *)
Definition scaffolded_from (folder : string) (fs1 : filesystem)
  : filesystem :=
  <[file_key folder "nvs.csv" := File (Text (scaffold_rows folder))]>
    (<[file_key folder "nvs.csv" := File (Text [])]>
       (with_empty_files folder files_to_create fs1)).

(** ** Vocabulary of the further properties *)

(** [s] without the occurrences of the character [c]. *)
Fixpoint delete_char (c : ascii) (s : string) : string :=
  match s with
  | EmptyString => EmptyString
  | String x s' =>
      if Ascii.eqb x c then delete_char c s' else String x (delete_char c s')
  end.








(** The first [n] directories of a resolved path are there and a regular
    file stands where the next one has to be. *)
Definition blocked_at (fs : filesystem) (k : rpath) (n : nat) : bool :=
  (n <? length k.2)%nat
  && forallb (fun m => is_dir (fs !! (k.1, take m k.2))) (seq 1 n)
  && is_file (fs !! (k.1, take (S n) k.2)).

(** A world in which [certs] is a regular file. *)
Definition certs_is_a_file : world :=
  MkWorld (<[resolve "certs" := File (Text [])]> ∅) [] 0.

(** A world in which the device folder is there and [nvs.csv] in it is a
    directory. *)
Definition store_is_a_directory : world :=
  MkWorld (<[resolve Sample.store := Dir]>
             (<[resolve Sample.folder := Dir]> (<[resolve "certs" := Dir]> ∅)))
    [] 0.

(** A world in which the device folder is there and [device.pem.crt] in it
    is a directory. *)
Definition certificate_is_a_directory : world :=
  MkWorld (<[resolve "certs/AABBCCDDEEFF/device.pem.crt" := Dir]>
             (<[resolve Sample.folder := Dir]> (<[resolve "certs" := Dir]> ∅)))
    [] 0.

(** The end of [create_folder_and_files]: writing the designated file. *)
Definition write_designated_file (folder_path : string) : M unit :=
  let file_path := os_path_join folder_path ["nvs.csv"] in
  open_w file_path ;;;
  csv_writerows file_path (scaffold_rows folder_path) ;;;
  print "Written 'nvs.csv'".

(** * Properties *)

(** ** Text and paths *)

Lemma str_app_nil_l (t : string) : "" +:+ t = t.
Proof. reflexivity. Qed.

Lemma str_app_cons (c : ascii) (s t : string) :
  String c s +:+ t = String c (s +:+ t).
Proof. reflexivity. Qed.

Lemma str_app_assoc (a b c : string) : (a +:+ b) +:+ c = a +:+ (b +:+ c).
Proof.
  induction a as [|x a IH]; [reflexivity|].
  rewrite !str_app_cons. by rewrite IH.
Qed.

Lemma str_eqb_eq (a b : string) : Str.eqb a b = true <-> a = b.
Proof.
  revert b. induction a as [|x a IH]; intros [|y b]; simpl; try easy.
  rewrite andb_true_iff, Ascii.eqb_eq, IH. split.
  - intros [-> ->]. reflexivity.
  - intros [= -> ->]. auto.
Qed.

Lemma str_eqb_neq (a b : string) : Str.eqb a b = false <-> a <> b.
Proof.
  rewrite <- str_eqb_eq. destruct (Str.eqb a b); split; congruence.
Qed.

Lemma rev_onto_app (acc a s : string) :
  Str.rev_onto a acc +:+ s = Str.rev_onto (a +:+ s) acc.
Proof.
  revert a. induction acc as [|c acc IH]; intros a; simpl; [reflexivity|].
  by rewrite IH, str_app_cons.
Qed.

Lemma startswith_char (p c : ascii) (s : string) :
  Str.startswith (String p "") (String c s) = Ascii.eqb p c.
Proof. cbn [Str.startswith]. apply andb_true_r. Qed.

(** Splitting on ["/"], which never skips: the pieces of [a/b] are those of
    [a] followed by those of [b]. *)
Lemma split_go_slash (a b acc : string) :
  Str.split_go "/" 0 acc (a +:+ String "/" b)
  = Str.split_go "/" 0 acc a ++ Str.split_go "/" 0 "" b.
Proof.
  revert acc. induction a as [|c a IH]; intros acc.
  - rewrite str_app_nil_l. reflexivity.
  - rewrite str_app_cons. cbn [Str.split_go]. rewrite !startswith_char.
    destruct (Ascii.eqb "/" c).
    + cbn [String.length Nat.pred]. by rewrite IH.
    + apply IH.
Qed.

Lemma split_slash (a b : string) :
  Str.split "/" (a +:+ "/" +:+ b) = Str.split "/" a ++ Str.split "/" b.
Proof. apply split_go_slash. Qed.

Lemma endswith_char_inv (c : ascii) (s : string) :
  Str.endswith_char c s = true -> exists s', s = s' +:+ String c "".
Proof.
  induction s as [|x s IH]; [discriminate|].
  destruct s as [|y s].
  - simpl. intros H%Ascii.eqb_eq. subst. by exists "".
  - intros H. destruct (IH H) as [s' ->]. by exists (String x s').
Qed.

Lemma startswith_app (p : ascii) (a b : string) :
  a <> "" -> Str.startswith (String p "") (a +:+ b)
             = Str.startswith (String p "") a.
Proof. destruct a as [|x a]; [congruence|]. intros _. reflexivity. Qed.

Lemma plain_name_not_absolute (name : string) :
  plain_name name -> Str.startswith "/" name = false.
Proof.
  intros [Hs Ht]. destruct name as [|c name]; [discriminate|].
  unfold Str.split in Hs. cbn [Str.split_go] in Hs.
  rewrite startswith_char in *.
  destruct (Ascii.eqb "/" c); [|reflexivity].
  cbn [Str.rev_onto] in Hs. discriminate.
Qed.

(** The resolved path of a plain name joined to a folder is the folder's
    resolved path with the name as one more segment. *)
Lemma resolve_join (folder name : string) :
  plain_name name ->
  resolve (os_path_join folder [name])
  = ((resolve folder).1, (resolve folder).2 ++ [name]).
Proof.
  intros Hp. pose proof (plain_name_not_absolute _ Hp) as H0.
  destruct Hp as [Hs Ht].
  unfold os_path_join. cbn [fold_left]. rewrite H0.
  assert (Hf : filter (fun seg => Str.truthy seg = true) [name] = [name]).
  { rewrite filter_cons, decide_True by done. reflexivity. }
  destruct folder as [|c folder].
  - simpl. rewrite str_app_nil_l. unfold resolve. rewrite H0, Hs, Hf. reflexivity.
  - cbn [Str.is_empty orb].
    destruct (Str.endswith_char "/" (String c folder)) eqn:He.
    + apply endswith_char_inv in He as [f' Hf'].
      rewrite Hf'. unfold resolve. rewrite <- Hf', startswith_app by done.
      rewrite Hf'. f_equal.
      rewrite str_app_assoc, !str_app_cons, !str_app_nil_l.
      change (f' +:+ String "/" name) with (f' +:+ "/" +:+ name).
      change (f' +:+ "/") with (f' +:+ "/" +:+ "").
      rewrite !split_slash, !filter_app, Hs, Hf. simpl.
      by rewrite app_nil_r.
    + unfold resolve. rewrite startswith_app by done. f_equal.
      rewrite split_slash, filter_app, Hs, Hf. reflexivity.
Qed.

Lemma plain_device_pem_crt : plain_name "device.pem.crt".
Proof. split; reflexivity. Qed.

Lemma plain_private_pem_key : plain_name "private.pem.key".
Proof. split; reflexivity. Qed.

Lemma plain_nvs_csv : plain_name "nvs.csv".
Proof. split; reflexivity. Qed.

Lemma plain_certs_bin : plain_name "certs.bin".
Proof. split; reflexivity. Qed.

(** The folder name of the example MAC: the colons are gone and the case
    is kept. *)
Example mac_folder_example :
  mac_folder "  aa:BB:cc:DD:ee:FF " = "aaBBccDDeeFF".
Proof. reflexivity. Qed.


(** ** Traces *)

Lemma execs_app (t1 t2 : list event) : execs (t1 ++ t2) = execs t1 ++ execs t2.
Proof. apply omap_app. Qed.

Lemma stderr_of_app (t1 t2 : list event) :
  stderr_of (t1 ++ t2) = stderr_of t1 ++ stderr_of t2.
Proof. apply omap_app. Qed.

Lemma execs_emit_stdout (s : string) (w : world) :
  execs (w_trace (emit (Stdout s) w)) = execs (w_trace w).
Proof. simpl. rewrite execs_app. apply app_nil_r. Qed.

Lemma execs_emit_stderr (s : string) (w : world) :
  execs (w_trace (emit (Stderr s) w)) = execs (w_trace w).
Proof. simpl. rewrite execs_app. apply app_nil_r. Qed.

Lemma execs_emit_exec (c : list string) (w : world) :
  execs (w_trace (emit (Exec c) w)) = execs (w_trace w) ++ [c].
Proof. simpl. by rewrite execs_app. Qed.

Lemma execs_set_fs (fs : filesystem) (w : world) :
  execs (w_trace (set_fs fs w)) = execs (w_trace w).
Proof. reflexivity. Qed.

(** Unfolding of the monad's combinators. *)
Ltac run :=
  repeat progress
    (unfold bind, catch, ret, raise, print, eprint, when; cbn beta iota).

(** ** The key/value store *)

Section Store.

Context (E : env).

Lemma scan_for_key_world (key : string) (rows : list row) (w : world) :
  (scan_for_key key rows w).2 = w.
Proof.
  induction rows as [|r rows IH]; [reflexivity|].
  cbn [scan_for_key]. unfold bind, py_index.
  destruct r as [|c r]; [reflexivity|]. simpl.
  destruct (Str.eqb c key); [reflexivity|apply IH].
Qed.

Lemma scan_for_key_absent (key : string) (rows : list row) (w : world) :
  Forall (first_column_differs key) rows ->
  scan_for_key key rows w = (Ret false, w).
Proof.
  induction 1 as [|r rows (c & rest & -> & Hne) _ IH]; [reflexivity|].
  cbn [scan_for_key]. unfold bind, py_index. simpl.
  apply str_eqb_neq in Hne. rewrite Hne. apply IH.
Qed.

Lemma scan_for_key_present (key : string) (rows : list row) (w : world) :
  Exists (first_column_is key) rows ->
  scan_for_key key rows w = (Ret true, w)
  \/ scan_for_key key rows w
     = (Raise (MkExn IndexError "list index out of range"), w).
Proof.
  induction rows as [|r rows IH]; intros Hex; [by inversion Hex|].
  cbn [scan_for_key]. unfold bind, py_index.
  destruct r as [|c r]; [right; reflexivity|]. simpl.
  destruct (Str.eqb c key) eqn:Hc; [left; reflexivity|].
  apply IH. inversion Hex as [? ? Hhd|]; subst; [|assumption].
  unfold first_column_is in Hhd. simpl in Hhd.
  apply str_eqb_neq in Hc. congruence.
Qed.

Lemma scan_for_key_cases (key : string) (rows : list row) (w : world) :
  exists r, scan_for_key key rows w = (r, w) /\
    (r = Ret true \/ r = Ret false
     \/ r = Raise (MkExn IndexError "list index out of range")).
Proof.
  induction rows as [|r rows IH]; [exists (Ret false); auto|].
  cbn [scan_for_key]. unfold bind, py_index.
  destruct r as [|c r]; [eexists; eauto|]. simpl.
  destruct (Str.eqb c key); [eexists; eauto|apply IH].
Qed.

Lemma node_at_file (fs : filesystem) (k : rpath) (d : file_data) :
  node_at fs k = Some (File d) -> fs !! k = Some (File d).
Proof. unfold node_at. destruct k.2; [discriminate|done]. Qed.

Lemma node_at_insert_same (fs : filesystem) (k : rpath) (d d' : file_data) :
  node_at fs k = Some (File d) ->
  node_at (<[k := File d']> fs) k = Some (File d').
Proof. unfold node_at. destruct k.2; [discriminate|]. by rewrite lookup_insert_eq. Qed.

End Store.

Section Insertions.

Context (E : env).

(** What an insertion does to a store whose first columns are all there
    and differ from the key: one record more. *)
Lemma insert_row_appends (ins : insertion) (filepath : string)
  (rows : list row) (w : world) :
  node_at (w_fs w) (resolve filepath) = Some (File (Text rows)) ->
  Forall (first_column_differs (target_key ins)) rows ->
  exists w',
    insert_row E ins filepath w = (Ret tt, w') /\
    w_fs w' = <[resolve filepath :=
                  File (Text (rows ++ [[target_key ins; "data"; "string";
                                        inserted_value E ins w]]))]> (w_fs w) /\
    execs (w_trace w') = execs (w_trace w).
Proof.
  intros Hnode Habs. destruct ins as [|version]; simpl in *.
  - unfold put_aes_key, put_aes_key_body, open_rplus. run.
    rewrite Hnode. cbn [csv_reader]. run.
    rewrite (scan_for_key_absent _ _ _ Habs).
    eexists. split; [reflexivity|]. split; [reflexivity|].
    simpl. rewrite execs_app. apply app_nil_r.
  - unfold put_hardware_version, put_hardware_version_body, open_rplus. run.
    rewrite Hnode. cbn [csv_reader]. run.
    rewrite (scan_for_key_absent _ _ _ Habs).
    eexists. split; [reflexivity|]. split; reflexivity.
Qed.

(** What an insertion does to a store that has the key: nothing, or an
    error message when an empty record comes before the key. *)
Lemma insert_row_present (ins : insertion) (filepath : string)
  (rows : list row) (w : world) :
  node_at (w_fs w) (resolve filepath) = Some (File (Text rows)) ->
  Exists (first_column_is (target_key ins)) rows ->
  exists w',
    insert_row E ins filepath w = (Ret tt, w') /\
    w_fs w' = w_fs w /\ w_drawn w' = w_drawn w /\
    execs (w_trace w') = execs (w_trace w).
Proof.
  intros Hnode Hex. destruct ins as [|version]; simpl in *.
  - unfold put_aes_key, put_aes_key_body, open_rplus. run.
    rewrite Hnode. cbn [csv_reader]. run.
    destruct (scan_for_key_present _ _ w Hex) as [-> | ->];
      eexists; (split; [reflexivity|]); repeat split;
      simpl; rewrite execs_app; apply app_nil_r.
  - unfold put_hardware_version, put_hardware_version_body, open_rplus. run.
    rewrite Hnode. cbn [csv_reader]. run.
    destruct (scan_for_key_present _ _ w Hex) as [-> | ->];
      eexists; (split; [reflexivity|]); repeat split;
      simpl; rewrite execs_app; apply app_nil_r.
Qed.

(** An insertion returns normally whatever it meets; it spawns nothing,
    and either leaves the file system as it is or adds one record to the
    store. *)
Lemma insert_row_total (ins : insertion) (filepath : string) (w : world) :
  exists w',
    insert_row E ins filepath w = (Ret tt, w') /\
    execs (w_trace w') = execs (w_trace w) /\
    (w_fs w' = w_fs w \/
     exists rows r,
       node_at (w_fs w) (resolve filepath) = Some (File (Text rows)) /\
       w_fs w' = <[resolve filepath := File (Text (rows ++ [r]))]> (w_fs w)).
Proof.
  destruct ins as [|version]; simpl.
  - unfold put_aes_key, put_aes_key_body, csv_write_failed, open_rplus. run.
    destruct (node_at (w_fs w) (resolve filepath)) as [[|[rows|msg]]|] eqn:Hn;
      cbn [csv_reader is_OSError exn_cls]; run;
      try (eexists; split; [reflexivity|]; split;
           [simpl; rewrite execs_app; apply app_nil_r | left; reflexivity]).
    destruct (scan_for_key_cases "aes_key" rows w) as (r & -> & [-> | [-> | ->]]);
      cbn [is_OSError exn_cls];
      eexists; (split; [reflexivity|]); (split;
        [simpl; rewrite execs_app; apply app_nil_r|]);
      [left; reflexivity | right; eauto | left; reflexivity].
  - unfold put_hardware_version, put_hardware_version_body, csv_write_failed,
      open_rplus. run.
    destruct (node_at (w_fs w) (resolve filepath)) as [[|[rows|msg]]|] eqn:Hn;
      cbn [csv_reader is_OSError exn_cls]; run;
      try (eexists; split; [reflexivity|]; split;
           [simpl; rewrite execs_app; apply app_nil_r | left; reflexivity]).
    destruct (scan_for_key_cases "hv" rows w) as (r & -> & [-> | [-> | ->]]);
      cbn [is_OSError exn_cls];
      eexists; (split; [reflexivity|]); (split;
        [simpl; try (rewrite execs_app; apply app_nil_r); reflexivity|]);
      [left; reflexivity | right; eauto | left; reflexivity].
Qed.

End Insertions.

(** ** Running external tools *)

(** Normal form of the projections of a trace built by [emit]. *)
Ltac trace_simpl :=
  simpl;
  repeat rewrite ?execs_app, ?stderr_of_app;
  simpl;
  repeat rewrite ?app_nil_r;
  repeat rewrite <- ?List.app_assoc;
  simpl.

Section Tools.

Context (E : env).

Lemma execute_command_spec (cmd : list string) (verbose : bool) (w : world) :
  cmd <> [] ->
  exists code w',
    execute_command E cmd verbose w = (Ret code, w') /\
    execs (w_trace w') = execs (w_trace w) ++ [cmd] /\
    w_drawn w' = w_drawn w /\
    match spawn E cmd (w_fs w) with
    | Ret c =>
        code = c_returncode c /\ w_fs w' = c_fs c /\
        stderr_of (w_trace w') = stderr_of (w_trace w) ++ ran_report c
    | Raise e =>
        code = 1 /\ w_fs w' = w_fs w /\
        stderr_of (w_trace w')
        = stderr_of (w_trace w) ++ [spawn_failure_report cmd e]
    end.
Proof.
  intros Hne. unfold execute_command.
  rewrite bool_decide_eq_false_2 by assumption.
  unfold run_process, ran_report, spawn_failure_report, not_found_report.
  run.
  destruct verbose; cbn [w_fs emit];
    (destruct (spawn E cmd (w_fs w)) as [c|e];
     [ destruct (Str.truthy (c_stdout c)), (Str.truthy (c_stderr c))
     | destruct (is_FileNotFoundError e) ]);
    run; do 2 eexists; (split; [reflexivity|]);
    repeat split; trace_simpl; reflexivity.
Qed.

End Tools.

(** ** The generation and flash workflows *)

Section Workflows.

Context (E : env).

Lemma exists_in_false (w : world) (p : string) :
  ~ exists_in w p ->
  bool_decide (is_Some (node_at (w_fs w) (resolve p))) = false.
Proof. intros H. by apply bool_decide_eq_false_2. Qed.

Lemma exists_in_true (w : world) (p : string) :
  exists_in w p ->
  bool_decide (is_Some (node_at (w_fs w) (resolve p))) = true.
Proof. intros H. by apply bool_decide_eq_true_2. Qed.

Lemma generate_cert_bin_missing (device_mac version : string) (w : world) :
  ~ exists_in w (store_path device_mac) ->
  generate_cert_bin E device_mac version w
  = (Ret 1,
     MkWorld (w_fs w) (w_trace w ++ missing_store_messages device_mac)
       (w_drawn w)).
Proof.
  intros Hno. unfold generate_cert_bin, os_path_exists. run.
  cbn [w_fs emit].
  change (os_path_join (os_path_join "certs" [mac_folder device_mac])
            ["nvs.csv"]) with (store_path device_mac).
  rewrite (exists_in_false _ _ Hno). cbn [negb]. run.
  cbn [is_FileNotFoundError exn_cls exn_str]. run.
  unfold emit, missing_store_messages. cbn [w_fs w_trace w_drawn].
  rewrite <- !List.app_assoc. reflexivity.
Qed.

(** With the store there, the workflow is the two insertions followed by
    the generator. *)
Lemma generate_cert_bin_present (device_mac version : string) (w : world) :
  exists_in w (store_path device_mac) ->
  exists w1 w2 code w',
    put_aes_key E (store_path device_mac)
      (emit (Stdout ("csv: " +:+ store_path device_mac)) w) = (Ret tt, w1) /\
    put_hardware_version (store_path device_mac) version w1 = (Ret tt, w2) /\
    execute_command E
      (generator_cmd (device_folder device_mac) (store_path device_mac)) true
      (emit (Stdout ("Generating certificate for "
                     +:+ device_folder device_mac +:+ "...")) w2)
    = (Ret code, w') /\
    generate_cert_bin E device_mac version w = (Ret code, w') /\
    execs (w_trace w')
    = execs (w_trace w)
      ++ [generator_cmd (device_folder device_mac) (store_path device_mac)].
Proof.
  intros Hyes. unfold generate_cert_bin, os_path_exists. run.
  cbn [w_fs emit].
  change (os_path_join (os_path_join "certs" [mac_folder device_mac])
            ["nvs.csv"]) with (store_path device_mac).
  change (os_path_join "certs" [mac_folder device_mac])
    with (device_folder device_mac).
  rewrite (exists_in_true _ _ Hyes). cbn [negb]. run.
  destruct (insert_row_total E AesKey (store_path device_mac)
              (emit (Stdout ("csv: " +:+ store_path device_mac)) w))
    as (w1 & H1 & Hx1 & _).
  destruct (insert_row_total E (HardwareVersion version)
              (store_path device_mac) w1) as (w2 & H2 & Hx2 & _).
  cbn [insert_row] in H1, H2.
  destruct (execute_command_spec E
              (generator_cmd (device_folder device_mac)
                 (store_path device_mac)) true
              (emit (Stdout ("Generating certificate for "
                             +:+ device_folder device_mac +:+ "...")) w2))
    as (code & w' & H3 & Hx3 & _); [discriminate|].
  exists w1, w2, code, w'. rewrite H1, H2, H3.
  repeat split.
  rewrite Hx3, execs_emit_stdout, Hx2, Hx1, execs_emit_stdout. done.
Qed.

Lemma flash_nvs_missing (device_mac port : string) (w : world) :
  ~ exists_in w (blob_path device_mac) ->
  flash_nvs E device_mac port w
  = (Ret 1, emit (missing_blob_message device_mac) w).
Proof.
  intros Hno. unfold flash_nvs, os_path_exists. run.
  change (os_path_join "certs" [mac_folder device_mac; "certs.bin"])
    with (blob_path device_mac).
  rewrite (exists_in_false _ _ Hno). cbn [negb]. run.
  cbn [is_FileNotFoundError exn_cls exn_str]. run. reflexivity.
Qed.

Lemma flash_nvs_present (device_mac port : string) (w : world) :
  exists_in w (blob_path device_mac) ->
  flash_nvs E device_mac port w
  = execute_command E (flash_cmd port (blob_path device_mac)) true
      (emit (Stdout ("Flashing " +:+ quoted (blob_path device_mac)
                     +:+ " to offset 0x9000 on port " +:+ port +:+ "...")) w).
Proof.
  intros Hyes. unfold flash_nvs, os_path_exists. run.
  change (os_path_join "certs" [mac_folder device_mac; "certs.bin"])
    with (blob_path device_mac).
  rewrite (exists_in_true _ _ Hyes). cbn [negb]. run.
  destruct (execute_command_spec E (flash_cmd port (blob_path device_mac))
              true
              (emit (Stdout ("Flashing " +:+ quoted (blob_path device_mac)
                     +:+ " to offset 0x9000 on port " +:+ port +:+ "...")) w))
    as (code & w' & H & _); [discriminate|].
  rewrite H. reflexivity.
Qed.

End Workflows.

(** ** The claims about the store *)

(** C3: on a store that already has a record whose first column is the
    target key (["aes_key"] for the AES-key insertion, ["hv"] for the
    hardware-version insertion), the insertion returns normally and changes
    nothing: the file system, and so the records of the store and their
    number, are as before. *)
Theorem insertion_of_existing_key_is_noop (E : env) (ins : insertion)
  (filepath : string) (rows : list row) (w : world) :
  node_at (w_fs w) (resolve filepath) = Some (File (Text rows)) ->
  Exists (first_column_is (target_key ins)) rows ->
  exists w',
    insert_row E ins filepath w = (Ret tt, w') /\
    w_fs w' = w_fs w /\
    node_at (w_fs w') (resolve filepath) = Some (File (Text rows)).
Proof.
  intros Hnode Hex.
  destruct (insert_row_present E ins filepath rows w Hnode Hex)
    as (w' & Hrun & Hfs & _).
  exists w'. rewrite Hfs. auto.
Qed.

Lemma insertion_of_existing_key_is_noop_witness :
  node_at (w_fs Sample.provisioned) (resolve Sample.store)
  = Some (File (Text Sample.provisioned_rows)) /\
  Exists (first_column_is "hv") Sample.provisioned_rows /\
  exists w',
    insert_row (Sample.env_exit 0) (HardwareVersion "1.0") Sample.store
      Sample.provisioned = (Ret tt, w') /\
    w_fs w' = w_fs Sample.provisioned /\
    node_at (w_fs w') (resolve Sample.store)
    = Some (File (Text Sample.provisioned_rows)).
Proof.
  assert (Hnode : node_at (w_fs Sample.provisioned) (resolve Sample.store)
                  = Some (File (Text Sample.provisioned_rows)))
    by (vm_compute; reflexivity).
  assert (Hex : Exists (first_column_is "hv") Sample.provisioned_rows)
    by (do 5 apply Exists_cons_tl; apply Exists_cons_hd; reflexivity).
  split; [exact Hnode|]. split; [exact Hex|].
  exact (insertion_of_existing_key_is_noop (Sample.env_exit 0)
           (HardwareVersion "1.0") Sample.store Sample.provisioned_rows
           Sample.provisioned Hnode Hex).
Defined.



(** ** The claims about missing prerequisites *)

(** C5: when the store file [certs/<mac without colons>/nvs.csv] of the
    device does not exist, the generation workflow returns the non-zero
    code 1, prints the hint that suggests the generate step, spawns no
    process (so the external generator is not invoked), and leaves every
    file, and the random source, as they were. *)
Theorem generation_refuses_without_store (E : env)
  (device_mac version : string) (w : world) :
  ~ exists_in w (store_path device_mac) ->
  exists w',
    generate_cert_bin E device_mac version w = (Ret 1, w') /\
    1 <> 0 /\
    w_trace w' = w_trace w ++ missing_store_messages device_mac /\
    Stdout "Suggestion: Generate device folder first" ∈ w_trace w' /\
    execs (w_trace w') = execs (w_trace w) /\
    w_fs w' = w_fs w /\
    w_drawn w' = w_drawn w.
Proof.
  intros Hno. rewrite (generate_cert_bin_missing E _ _ _ Hno).
  eexists. split; [reflexivity|]. cbn [w_trace w_fs w_drawn].
  repeat split; [lia| |].
  - apply elem_of_app. right. unfold missing_store_messages.
    apply list_elem_of_further, list_elem_of_further, list_elem_of_here.
  - rewrite execs_app. apply app_nil_r.
Qed.

Lemma generation_refuses_without_store_witness :
  store_path Sample.mac = Sample.store /\
  ~ exists_in Sample.empty_world Sample.store /\
  exists w',
    generate_cert_bin (Sample.env_exit 0) Sample.mac "1.0" Sample.empty_world
    = (Ret 1, w') /\
    execs (w_trace w') = [] /\
    w_fs w' = ∅.
Proof.
  assert (Hno : ~ exists_in Sample.empty_world (store_path Sample.mac)).
  { unfold exists_in. vm_compute. intros [x Hx]. discriminate Hx. }
  split; [reflexivity|]. split; [exact Hno|].
  destruct (generation_refuses_without_store (Sample.env_exit 0) Sample.mac
              "1.0" Sample.empty_world Hno)
    as (w' & Hrun & _ & _ & _ & Hex & Hfs & _).
  exists w'. auto.
Defined.

(** C6: when the blob file [certs/<mac without colons>/certs.bin] of the
    device does not exist, the flash workflow returns the non-zero code 1,
    prints that the binary file was not found, and spawns no process (so
    the external flasher is not invoked); the files are as they were. *)
Theorem flash_refuses_without_blob (E : env) (device_mac port : string)
  (w : world) :
  ~ exists_in w (blob_path device_mac) ->
  exists w',
    flash_nvs E device_mac port w = (Ret 1, w') /\
    1 <> 0 /\
    w_trace w' = w_trace w ++ [missing_blob_message device_mac] /\
    execs (w_trace w') = execs (w_trace w) /\
    w_fs w' = w_fs w.
Proof.
  intros Hno. rewrite (flash_nvs_missing E _ _ _ Hno).
  eexists. split; [reflexivity|].
  repeat split; [lia|]. apply execs_emit_stdout.
Qed.

Lemma flash_refuses_without_blob_witness :
  blob_path Sample.mac = Sample.blob /\
  ~ exists_in Sample.scaffolded Sample.blob /\
  exists w',
    flash_nvs (Sample.env_exit 0) Sample.mac "/dev/ttyUSB0" Sample.scaffolded
    = (Ret 1, w') /\
    execs (w_trace w') = [].
Proof.
  assert (Hno : ~ exists_in Sample.scaffolded (blob_path Sample.mac)).
  { unfold exists_in. vm_compute. intros [x Hx]. discriminate Hx. }
  split; [reflexivity|]. split; [exact Hno|].
  destruct (flash_refuses_without_blob (Sample.env_exit 0) Sample.mac
              "/dev/ttyUSB0" Sample.scaffolded Hno)
    as (w' & Hrun & _ & _ & Hex & _).
  exists w'. auto.
Defined.

(** ** The claim about exit codes *)




(** ** The claim about errors inside the insertions *)

Section InsertionErrors.

Context (E : env).

Lemma csv_write_failed_prints (filepath : string) (e : exn) (w : world) :
  csv_write_failed filepath e w
  = (Ret tt, emit (Stderr (csv_failure_message filepath e)) w).
Proof.
  unfold csv_write_failed, csv_failure_message.
  destruct (is_OSError e); reflexivity.
Qed.

(** The body of an insertion raises before it has changed anything. *)
Lemma insert_row_body_raises (ins : insertion) (filepath : string)
  (w wb : world) (e : exn) :
  insert_row_body E ins filepath w = (Raise e, wb) -> wb = w.
Proof.
  destruct ins as [|version]; simpl.
  - unfold put_aes_key_body, open_rplus, generate_aes_key, token_bytes,
      csv_writerow. run.
    destruct (node_at (w_fs w) (resolve filepath)) as [[|[rows|msg]]|];
      cbn [csv_reader]; run; try congruence.
    destruct (scan_for_key_cases "aes_key" rows w)
      as (r & -> & [-> | [-> | ->]]); simpl; congruence.
  - unfold put_hardware_version_body, open_rplus, csv_writerow. run.
    destruct (node_at (w_fs w) (resolve filepath)) as [[|[rows|msg]]|];
      cbn [csv_reader]; run; try congruence.
    destruct (scan_for_key_cases "hv" rows w)
      as (r & -> & [-> | [-> | ->]]); simpl; congruence.
Qed.

Lemma insert_row_catches (ins : insertion) (filepath : string) (w : world) :
  exists w1,
    insert_row E ins filepath w = (Ret tt, w1) /\
    match insert_row_body E ins filepath w with
    | (Ret _, wb) => w1 = wb
    | (Raise e, wb) =>
        w1 = emit (Stderr (csv_failure_message filepath e)) w /\ wb = w
    end.
Proof.
  destruct (insert_row_body E ins filepath w) as [[[]|e] wb] eqn:Hbody.
  - exists wb. split; [|reflexivity].
    destruct ins; simpl in *;
      unfold put_aes_key, put_hardware_version, catch; by rewrite Hbody.
  - pose proof (insert_row_body_raises _ _ _ _ _ Hbody) as ->.
    eexists. split; [|split; reflexivity].
    destruct ins; simpl in *;
      unfold put_aes_key, put_hardware_version, catch; rewrite Hbody;
      apply csv_write_failed_prints.
Qed.

End InsertionErrors.

(** C10: an insertion always returns normally.  When its body raises (the
    store cannot be opened, its bytes do not decode, or an empty record
    makes the first-column test raise) the exception is caught inside the
    insertion, its message is printed on the error stream, and nothing has
    been written.  So once the store-existence check has passed, the
    generation workflow returns the code of [execute_command] and has
    spawned exactly the external generator, whether or not the insertions
    appended their records. *)
Theorem insertion_errors_do_not_stop_generation (E : env)
  (device_mac version : string) (w : world) :
  exists_in w (store_path device_mac) ->
  (forall ins filepath w0,
     exists w1,
       insert_row E ins filepath w0 = (Ret tt, w1) /\
       match insert_row_body E ins filepath w0 with
       | (Ret _, wb) => w1 = wb
       | (Raise e, wb) =>
           w1 = emit (Stderr (csv_failure_message filepath e)) w0 /\ wb = w0
       end) /\
  exists code w',
    generate_cert_bin E device_mac version w = (Ret code, w') /\
    execs (w_trace w')
    = execs (w_trace w)
      ++ [generator_cmd (device_folder device_mac) (store_path device_mac)].
Proof.
  intros Hyes. split.
  - intros ins filepath w0. apply insert_row_catches.
  - destruct (generate_cert_bin_present E device_mac version w Hyes)
      as (w1 & w2 & code & w' & _ & _ & _ & Hrun & Hexecs).
    exists code, w'. auto.
Qed.

Lemma insertion_errors_do_not_stop_generation_witness :
  exists_in Sample.blank_line (store_path Sample.mac) /\
  (exists code w',
     generate_cert_bin (Sample.env_exit 0) Sample.mac "1.0" Sample.blank_line
     = (Ret code, w') /\
     execs (w_trace w')
     = [["python3"; "cert_gen.py"; "generate"; Sample.store; Sample.blob;
         "16384"]]) /\
  (generate_cert_bin (Sample.env_exit 0) Sample.mac "1.0" Sample.blank_line).1
  = Ret 0 /\
  stderr_of (w_trace (generate_cert_bin (Sample.env_exit 0) Sample.mac "1.0"
                        Sample.blank_line).2)
  = ["An unexpected error occurred: list index out of range";
     "An unexpected error occurred: list index out of range"] /\
  node_at (w_fs (generate_cert_bin (Sample.env_exit 0) Sample.mac "1.0"
                   Sample.blank_line).2) (resolve Sample.store)
  = Some (File (Text Sample.blank_line_rows)).
Proof.
  assert (Hyes : exists_in Sample.blank_line (store_path Sample.mac)).
  { unfold exists_in. vm_compute. eexists. reflexivity. }
  split; [exact Hyes|]. split.
  - destruct (insertion_errors_do_not_stop_generation (Sample.env_exit 0)
                Sample.mac "1.0" Sample.blank_line Hyes)
      as (_ & code & w' & Hrun & Hexecs).
    exists code, w'. split; [exact Hrun|exact Hexecs].
  - repeat split; vm_compute; reflexivity.
Defined.

(** ** The dispatch on the flags *)

Section Dispatch.

Context (E : env).

Lemma banner_printed (a : args) (w : world) :
  emit (Stdout "------------------------")
    (emit (Stdout ("Generate: " +:+ py_bool (a_generate a)))
       (emit (Stdout ("MAC:     " +:+ default "Not specified" (a_mac a)))
          (emit (Stdout ("Port:    " +:+ default "Not specified" (a_port a)))
             (emit (Stdout "--- Arguments ---") w))))
  = MkWorld (w_fs w) (w_trace w ++ banner a) (w_drawn w).
Proof.
  unfold emit, banner. cbn [w_fs w_trace w_drawn].
  by rewrite <- !List.app_assoc.
Qed.

(** [main] is the banner followed by the behaviour the table selects. *)
Lemma main_selects (a : args) (w : world) :
  main E a w
  = behaviour E (selected a) a
      (MkWorld (w_fs w) (w_trace w ++ banner a) (w_drawn w)).
Proof.
  rewrite <- banner_printed. unfold main, selected, behaviour.
  unfold bind at 1 2 3 4 5. unfold print at 1 2 3 4 5. cbn beta iota.
  destruct (truthy_opt (a_port a)), (truthy_opt (a_mac a)),
    (truthy_opt (a_hv a)), (a_generate a); reflexivity.
Qed.

End Dispatch.

(** C1, as amended: the flags select one of six behaviours, a flag
    counting as given when its value is a non-empty string.  Port, mac and
    hv select generate-then-flash with the given MAC; port and hv without
    mac select generate-then-flash with the discovered MAC; -g and mac
    (without port and hv together) select scaffolding with the given MAC;
    -g and port alone select scaffolding with the discovered MAC; port
    without hv and without -g selects MAC discovery alone, whose result is
    dropped; every remaining combination prints the banner and the help
    text, spawns nothing and leaves the files alone. *)
Theorem main_dispatch (E : env) (a : args) (w : world) :
  match selected a with
  | ShowHelp =>
      main E a w
      = (Ret tt, MkWorld (w_fs w) (w_trace w ++ banner a ++ [Help]) (w_drawn w))
  | selected_workflow =>
      main E a w
      = behaviour E selected_workflow a
          (MkWorld (w_fs w) (w_trace w ++ banner a) (w_drawn w))
  end.
Proof.
  rewrite main_selects.
  destruct (selected a); try reflexivity.
  unfold behaviour, print_help, emit. cbn [w_fs w_trace w_drawn].
  by rewrite <- List.app_assoc.
Qed.

(** C1 as stated fails: with the port as the only flag, which is none of
    the four named combinations, the program does not print the help text;
    it runs MAC discovery on the port. *)
Lemma port_alone_is_not_help :
  let a := MkArgs false (Some "/dev/ttyUSB0") None None in
  let w' := (main (Sample.env_exit 0) a Sample.empty_world).2 in
  recognized a = false /\
  (Help ∉ w_trace w') /\
  execs (w_trace w')
  = [["python3"; "-m"; "esptool"; "--port"; "/dev/ttyUSB0"; "read_mac"]].
Proof.
  cbv zeta. split; [reflexivity|]. split.
  - intros Hin. vm_compute in Hin.
    repeat (apply elem_of_cons in Hin as [Hin|Hin]; [discriminate Hin|]).
    by apply elem_of_nil in Hin.
  - vm_compute. reflexivity.
Qed.

(** ** The end-to-end example *)

Section Example.

Context (E : env).

Lemma first_differs_extend (key : string) (rows : list row) (r : row) :
  Forall (first_column_differs key) rows ->
  first_column_differs key r ->
  Forall (first_column_differs key) (rows ++ [r]).
Proof. intros H1 H2. apply Forall_app. split; [done|]. by constructor. Qed.

(** The two insertions on a store that has neither key. *)
Lemma both_insertions (filepath version : string) (rows : list row)
  (w : world) :
  node_at (w_fs w) (resolve filepath) = Some (File (Text rows)) ->
  Forall (first_column_differs "aes_key") rows ->
  Forall (first_column_differs "hv") rows ->
  exists w1 w2,
    put_aes_key E filepath w = (Ret tt, w1) /\
    put_hardware_version filepath version w1 = (Ret tt, w2) /\
    w_fs w2
    = <[resolve filepath :=
          File (Text (rows
                      ++ [ ["aes_key"; "data"; "string";
                            hex (map (urandom E)
                                   (seq (w_drawn w) KEY_SIZE_BYTES))];
                           ["hv"; "data"; "string"; version] ]))]> (w_fs w).
Proof.
  intros Hnode Haes Hhv.
  destruct (insert_row_appends E AesKey filepath rows w Hnode Haes)
    as (w1 & Hrun1 & Hfs1 & _).
  cbn [insert_row target_key inserted_value] in *.
  assert (Hnode1 : node_at (w_fs w1) (resolve filepath)
            = Some (File (Text (rows ++ [["aes_key"; "data"; "string";
                 hex (map (urandom E) (seq (w_drawn w) KEY_SIZE_BYTES))]])))).
  { rewrite Hfs1. eapply node_at_insert_same, Hnode. }
  destruct (insert_row_appends E (HardwareVersion version) filepath _ w1
              Hnode1) as (w2 & Hrun2 & Hfs2 & _).
  { apply first_differs_extend; [exact Hhv|].
    eexists _, _. split; [reflexivity|discriminate]. }
  cbn [insert_row target_key inserted_value] in *.
  exists w1, w2. split; [exact Hrun1|]. split; [exact Hrun2|].
  rewrite Hfs2, Hfs1, insert_insert_eq, <- List.app_assoc. reflexivity.
Qed.

End Example.

Lemma execs_banner (a : args) (t : list event) :
  execs (t ++ banner a) = execs t.
Proof. rewrite execs_app. apply app_nil_r. Qed.




(** ** MAC discovery *)

Section Discovery.

Context (E : env).

Lemma get_mac_address_spawn_fails (port : string) (w : world) (e : exn) :
  spawn E (read_mac_cmd port) (w_fs w) = Raise e ->
  (get_mac_address E port w).1 = Raise e.
Proof.
  intros Hs. unfold get_mac_address, run_process. run. by rewrite Hs.
Qed.

Lemma get_mac_address_nonzero_exit (port : string) (w : world)
  (c : completed) :
  spawn E (read_mac_cmd port) (w_fs w) = Ret c ->
  c_returncode c <> 0 ->
  (get_mac_address E port w).1 = Ret None.
Proof.
  intros Hs Hrc. unfold get_mac_address, run_process. run. rewrite Hs.
  apply Z.eqb_neq in Hrc. by rewrite Hrc.
Qed.

Lemma grep_nothing (pat text : string) :
  Forall (fun l => Str.contains pat l = false) (text_lines text) ->
  grep pat text = "".
Proof.
  unfold grep. induction 1 as [|l ls Hl _ IH]; [reflexivity|].
  rewrite filter_cons, decide_False by congruence. exact IH.
Qed.

Lemma get_mac_address_no_matching_line (port : string) (w : world)
  (c : completed) :
  spawn E (read_mac_cmd port) (w_fs w) = Ret c ->
  c_returncode c = 0 ->
  Forall (fun l => Str.contains "MAC:" l = false) (text_lines (c_stdout c)) ->
  (get_mac_address E port w).1 = Ret None.
Proof.
  intros Hs Hrc Hno. unfold get_mac_address, run_process. run. rewrite Hs.
  rewrite Hrc. cbn [Z.eqb]. by rewrite (grep_nothing _ _ Hno).
Qed.

End Discovery.

(** On the output the flashing tool prints, discovery returns the
    address. *)
Example get_mac_address_typical :
  (get_mac_address (Sample.env_prints read_mac_output) "/dev/ttyUSB0"
     Sample.empty_world).1 = Ret (Some "aa:bb:cc:dd:ee:ff").
Proof. vm_compute. reflexivity. Qed.

(** C8, where the code departs from it: the tool exits with 0 and its
    output has a line with [MAC:] but nowhere the marker [MAC: ]; the
    filter lets the line through, the split on the marker has one piece
    only, and taking the second piece raises [IndexError] instead of
    returning [None]. *)
Theorem get_mac_address_raises_without_marker :
  Str.contains "MAC: " read_mac_output_no_space = false /\
  spawn (Sample.env_prints read_mac_output_no_space)
    (read_mac_cmd "/dev/ttyUSB0") ∅
  = Ret (MkCompleted read_mac_output_no_space "" 0 ∅) /\
  (get_mac_address (Sample.env_prints read_mac_output_no_space)
     "/dev/ttyUSB0" Sample.empty_world).1
  = Raise (MkExn IndexError "list index out of range").
Proof. repeat split; vm_compute; reflexivity. Qed.

(** ** Scaffolding *)

Section Directories.

Lemma makedirs_go_ok (abs : bool) (todo : list string) :
  forall (done : list string) (fs : filesystem),
    (forall n, (n < length todo)%nat ->
               is_file (fs !! (abs, done ++ take (S n) todo)) = false) ->
    exists fs',
      makedirs_go abs done todo fs = (Ret tt, fs') /\
      (forall n, (n < length todo)%nat ->
                 fs' !! (abs, done ++ take (S n) todo) = Some Dir) /\
      (forall k, (forall n, (n < length todo)%nat ->
                            k <> (abs, done ++ take (S n) todo)) ->
                 fs' !! k = fs !! k).
Proof.
  induction todo as [|seg rest IH]; intros done fs Hfree.
  - exists fs. split; [reflexivity|]. split; [|reflexivity].
    intros n Hn. simpl in Hn. lia.
  - assert (Hshift : forall n, (done ++ [seg]) ++ take (S n) rest
                               = done ++ take (S (S n)) (seg :: rest)).
    { intros n. rewrite <- List.app_assoc. reflexivity. }
    assert (Hfirst : done ++ take 1 (seg :: rest) = done ++ [seg])
      by (simpl; by rewrite take_0).
    assert (Hlonger : forall n, (n < length rest)%nat ->
              (abs, done ++ [seg])
              <> (abs, (done ++ [seg]) ++ take (S n) rest)).
    { intros n Hn [= Heq]. apply (f_equal length) in Heq.
      rewrite !length_app, length_take in Heq. cbn [length] in Heq. lia. }
    cbn [makedirs_go].
    pose proof (Hfree 0%nat ltac:(simpl; lia)) as H0. rewrite Hfirst in H0.
    destruct (fs !! (abs, done ++ [seg])) as [[|d]|] eqn:Hk;
      [ | discriminate H0 | ].
    + destruct (IH (done ++ [seg]) fs) as (fs' & Hrun & Hdirs & Hother).
      { intros n Hn. rewrite Hshift. apply Hfree. simpl. lia. }
      exists fs'. split; [exact Hrun|]. split.
      * intros [|n] Hn.
        -- rewrite Hfirst, Hother; [exact Hk|]. exact Hlonger.
        -- rewrite <- Hshift. apply Hdirs. simpl in Hn. lia.
      * intros k Hk'. apply Hother. intros n Hn. rewrite Hshift.
        apply Hk'. simpl. lia.
    + destruct (IH (done ++ [seg]) (<[(abs, done ++ [seg]) := Dir]> fs))
        as (fs' & Hrun & Hdirs & Hother).
      { intros n Hn. rewrite lookup_insert_ne by (by apply Hlonger).
        rewrite Hshift. apply Hfree. simpl. lia. }
      exists fs'. split; [exact Hrun|]. split.
      * intros [|n] Hn.
        -- rewrite Hfirst, Hother; [apply lookup_insert_eq|]. exact Hlonger.
        -- rewrite <- Hshift. apply Hdirs. simpl in Hn. lia.
      * intros k Hk'. rewrite Hother.
        -- apply lookup_insert_ne. rewrite <- Hfirst.
           intros <-. eapply (Hk' 0%nat); [simpl; lia|reflexivity].
        -- intros n Hn. rewrite Hshift. apply Hk'. simpl. lia.
Qed.

Lemma makedirs_go_id (abs : bool) (todo : list string) :
  forall (done : list string) (fs : filesystem),
    (forall n, (n < length todo)%nat ->
               fs !! (abs, done ++ take (S n) todo) = Some Dir) ->
    makedirs_go abs done todo fs = (Ret tt, fs).
Proof.
  induction todo as [|seg rest IH]; intros done fs Hdirs; [reflexivity|].
  cbn [makedirs_go].
  pose proof (Hdirs 0%nat ltac:(simpl; lia)) as H0. simpl in H0.
  rewrite take_0 in H0. rewrite H0. apply IH.
  intros n Hn. rewrite <- List.app_assoc. apply (Hdirs (S n)). simpl. lia.
Qed.

Lemma dirs_creatable_spec (fs : filesystem) (k : rpath) :
  dirs_creatable fs k = true ->
  forall n, (n < length k.2)%nat ->
            is_file (fs !! (k.1, [] ++ take (S n) k.2)) = false.
Proof.
  unfold dirs_creatable. rewrite forallb_forall. intros H n Hn.
  apply negb_true_iff, H, in_seq. lia.
Qed.

End Directories.

Section Files.

Lemma parent_file_key (folder name : string) :
  parent (file_key folder name) = resolve folder.
Proof.
  unfold parent, file_key. cbn [fst snd]. rewrite removelast_last.
  by destruct (resolve folder).
Qed.

Lemma node_at_file_key (fs : filesystem) (folder name : string) :
  node_at fs (file_key folder name) = fs !! file_key folder name.
Proof.
  unfold node_at, file_key. cbn [snd].
  by destruct (resolve folder).2.
Qed.

Lemma file_key_not_folder (folder name : string) :
  (resolve folder).2 <> [] -> file_key folder name <> resolve folder.
Proof.
  unfold file_key. destruct (resolve folder) as [abs segs]. cbn [fst snd].
  intros _ [= Heq]. apply (f_equal length) in Heq.
  rewrite length_app in Heq. simpl in Heq. lia.
Qed.

Lemma node_at_folder_insert (fs : filesystem) (folder name : string)
  (x : node) :
  node_at (<[file_key folder name := x]> fs) (resolve folder)
  = node_at fs (resolve folder).
Proof.
  unfold node_at. destruct (resolve folder).2 eqn:Hsegs; [reflexivity|].
  apply lookup_insert_ne, file_key_not_folder. by rewrite Hsegs.
Qed.

Lemma open_w_file (folder name : string) (w : world) :
  plain_name name ->
  node_at (w_fs w) (resolve folder) = Some Dir ->
  is_dir (w_fs w !! file_key folder name) = false ->
  open_w (os_path_join folder [name]) w
  = (Ret tt, set_fs (<[file_key folder name := File (Text [])]> (w_fs w)) w).
Proof.
  intros Hplain Hdir Hfree. unfold open_w.
  rewrite (resolve_join _ _ Hplain). fold (file_key folder name).
  rewrite node_at_file_key, parent_file_key, Hdir.
  destruct (w_fs w !! file_key folder name) as [[|d]|];
    [discriminate Hfree|reflexivity|reflexivity].
Qed.

Lemma create_files_ok (folder : string) (names : list string) :
  Forall plain_name names ->
  forall (acc : bool) (w : world),
    node_at (w_fs w) (resolve folder) = Some Dir ->
    Forall (fun name => is_dir (w_fs w !! file_key folder name) = false)
      names ->
    exists w',
      create_files folder names acc w = (Ret acc, w') /\
      w_fs w' = with_empty_files folder names (w_fs w) /\
      w_drawn w' = w_drawn w /\
      execs (w_trace w') = execs (w_trace w).
Proof.
  induction 1 as [|name names Hplain _ IH]; intros acc w Hdir Hfree.
  - exists w. auto.
  - inversion Hfree as [|? ? Hname Hrest]; subst.
    cbn [create_files]. unfold create_empty_file. run.
    rewrite (open_w_file _ _ _ Hplain Hdir Hname). cbn beta iota.
    set (w1 := emit _ _).
    destruct (IH (acc && true) w1) as (w' & Hrun & Hfs & Hdr & Hex).
    + subst w1. cbn [w_fs emit set_fs]. by rewrite node_at_folder_insert.
    + subst w1. cbn [w_fs emit set_fs].
      eapply Forall_impl; [exact Hrest|]. intros other Hother. cbn beta.
      rewrite lookup_insert. case_decide; [reflexivity|exact Hother].
    + exists w'. rewrite Hrun, andb_true_r. split; [reflexivity|].
      rewrite Hfs, Hdr, Hex. subst w1. cbn [w_fs emit set_fs w_drawn].
      repeat split. trace_simpl. reflexivity.
Qed.

Lemma with_empty_files_folder (folder : string) (names : list string)
  (fs : filesystem) :
  node_at (with_empty_files folder names fs) (resolve folder)
  = node_at fs (resolve folder).
Proof.
  revert fs. induction names as [|name names IH]; intros fs; [reflexivity|].
  unfold with_empty_files. cbn [fold_left].
  fold (with_empty_files folder names
          (<[file_key folder name := File (Text [])]> fs)).
  by rewrite IH, node_at_folder_insert.
Qed.

(** The scaffolding once the directories are there. *)
Lemma scaffold_run (device_mac : string) (w : world) (fs1 : filesystem) :
  let folder := device_folder device_mac in
  makedirs_go (resolve folder).1 [] (resolve folder).2 (w_fs w)
  = (Ret tt, fs1) ->
  node_at fs1 (resolve folder) = Some Dir ->
  Forall (fun name => is_dir (fs1 !! file_key folder name) = false)
    files_to_create ->
  exists w',
    create_folder_and_files device_mac files_to_create (Some "nvs.csv") w
    = (Ret true, w') /\
    w_fs w'
    = <[file_key folder "nvs.csv" := File (Text (scaffold_rows folder))]>
        (<[file_key folder "nvs.csv" := File (Text [])]>
           (with_empty_files folder files_to_create fs1)) /\
    execs (w_trace w') = execs (w_trace w).
Proof.
  intros folder Hmk Hdir Hfree.
  unfold create_folder_and_files, os_makedirs. fold (device_folder device_mac).
  fold folder. run. rewrite Hmk. cbn beta iota. cbn [negb].
  set (w1 := emit _ (set_fs fs1 w)).
  destruct (create_files_ok folder files_to_create
              ltac:(repeat constructor; reflexivity) true w1)
    as (w2 & Hrun & Hfs2 & _ & Hex2); [exact Hdir|exact Hfree|].
  rewrite Hrun. cbn beta iota.
  change (the (Some "nvs.csv")) with "nvs.csv".
  change (truthy_opt (Some "nvs.csv")) with true.
  rewrite bool_decide_eq_true_2
    by (unfold files_to_create; apply list_elem_of_In; simpl; tauto).
  cbn [andb negb].
  assert (Hdir2 : node_at (w_fs w2) (resolve folder) = Some Dir)
    by (rewrite Hfs2, with_empty_files_folder; exact Hdir).
  assert (Hfile2 : is_dir (w_fs w2 !! file_key folder "nvs.csv") = false).
  { rewrite Hfs2. unfold with_empty_files, files_to_create.
    cbn [fold_left]. by rewrite lookup_insert_eq. }
  rewrite (open_w_file folder "nvs.csv" w2 plain_nvs_csv Hdir2 Hfile2).
  cbn beta iota. unfold csv_writerows.
  rewrite (resolve_join folder "nvs.csv" plain_nvs_csv).
  fold (file_key folder "nvs.csv").
  eexists. split; [reflexivity|]. cbn [w_fs emit set_fs].
  rewrite Hfs2. split; [reflexivity|].
  trace_simpl. rewrite Hex2. subst w1. trace_simpl. reflexivity.
Qed.

End Files.

Section Scaffolding.

Lemma file_key_inj (folder a b : string) :
  file_key folder a = file_key folder b -> a = b.
Proof.
  unfold file_key. intros [= Heq]. apply app_inv_head in Heq. congruence.
Qed.

Lemma file_key_not_prefix (folder name : string) (n : nat) :
  file_key folder name
  <> ((resolve folder).1, [] ++ take (S n) (resolve folder).2).
Proof.
  unfold file_key. intros [= Heq]. apply (f_equal length) in Heq.
  rewrite !length_app, length_take in Heq. cbn [length] in Heq. lia.
Qed.

Lemma with_empty_files_other (folder : string) (names : list string)
  (fs : filesystem) (k : rpath) :
  (forall name, k <> file_key folder name) ->
  with_empty_files folder names fs !! k = fs !! k.
Proof.
  intros Hk. revert fs.
  induction names as [|name names IH]; intros fs; [reflexivity|].
  unfold with_empty_files. cbn [fold_left].
  fold (with_empty_files folder names
          (<[file_key folder name := File (Text [])]> fs)).
  rewrite IH. apply lookup_insert_ne. intros Heq. by apply (Hk name).
Qed.

Lemma scaffolded_from_other (folder : string) (fs1 : filesystem) (k : rpath) :
  (forall name, k <> file_key folder name) ->
  scaffolded_from folder fs1 !! k = fs1 !! k.
Proof.
  intros Hk. unfold scaffolded_from.
  rewrite !lookup_insert_ne by (intros Heq; by apply (Hk "nvs.csv")).
  by apply with_empty_files_other.
Qed.

Lemma scaffolded_from_files (folder : string) (fs1 : filesystem) :
  scaffolded_from folder fs1 !! file_key folder "device.pem.crt"
  = Some (File (Text [])) /\
  scaffolded_from folder fs1 !! file_key folder "private.pem.key"
  = Some (File (Text [])) /\
  scaffolded_from folder fs1 !! file_key folder "nvs.csv"
  = Some (File (Text (scaffold_rows folder))).
Proof.
  unfold scaffolded_from, with_empty_files, files_to_create.
  cbn [fold_left]. repeat split; rewrite !lookup_insert;
    repeat case_decide; try reflexivity;
    match goal with
    | H : file_key _ _ = file_key _ _ |- _ =>
        apply file_key_inj in H; discriminate H
    | H : file_key _ ?a <> file_key _ ?a |- _ => by destruct H
    end.
Qed.

Lemma scaffolded_from_idempotent (folder : string) (fs1 : filesystem) :
  scaffolded_from folder (scaffolded_from folder fs1)
  = scaffolded_from folder fs1.
Proof.
  apply map_eq. intros k.
  unfold scaffolded_from, with_empty_files, files_to_create.
  cbn [fold_left]. rewrite !lookup_insert.
  repeat case_decide; reflexivity.
Qed.

End Scaffolding.

Section ScaffoldingRuns.

Lemma folder_is_dir_after (folder : string) (fs1 : filesystem) :
  (forall n, (n < length (resolve folder).2)%nat ->
             fs1 !! ((resolve folder).1, [] ++ take (S n) (resolve folder).2)
             = Some Dir) ->
  node_at fs1 (resolve folder) = Some Dir.
Proof.
  intros Hdirs. unfold node_at.
  destruct (resolve folder) as [abs segs]. cbn [fst snd] in *.
  destruct segs as [|seg rest]; [reflexivity|].
  specialize (Hdirs (length rest) ltac:(simpl; lia)).
  rewrite take_ge in Hdirs by (simpl; lia). exact Hdirs.
Qed.

(** One run of the scaffolding from a file system where nothing is in
    the way. *)
Lemma scaffold_once (device_mac : string) (w : world) :
  let folder := device_folder device_mac in
  dirs_creatable (w_fs w) (resolve folder) = true ->
  Forall (fun name =>
            file_creatable (w_fs w) (os_path_join folder [name]) = true)
    files_to_create ->
  exists fs1 w',
    create_folder_and_files device_mac files_to_create (Some "nvs.csv") w
    = (Ret true, w') /\
    makedirs_go (resolve folder).1 [] (resolve folder).2 (w_fs w)
    = (Ret tt, fs1) /\
    w_fs w' = scaffolded_from folder fs1 /\
    node_at fs1 (resolve folder) = Some Dir /\
    (forall n, (n < length (resolve folder).2)%nat ->
               fs1 !! ((resolve folder).1,
                       [] ++ take (S n) (resolve folder).2) = Some Dir) /\
    execs (w_trace w') = execs (w_trace w).
Proof.
  intros folder Hdirs Hfiles.
  destruct (makedirs_go_ok (resolve folder).1 (resolve folder).2 []
              (w_fs w) (dirs_creatable_spec _ _ Hdirs))
    as (fs1 & Hmk & Hmade & Hother).
  pose proof (folder_is_dir_after folder fs1 Hmade) as Hdir.
  assert (Hfree : Forall (fun name =>
                    is_dir (fs1 !! file_key folder name) = false)
                    files_to_create).
  { assert (Hplain : Forall plain_name files_to_create)
      by (repeat constructor; reflexivity).
    revert Hplain. induction Hfiles as [|name names Hname _ IH];
      intros Hplain; [constructor|].
    inversion Hplain as [|? ? Hp Hps]; subst.
    constructor; [|by apply IH].
    unfold file_creatable in Hname.
    rewrite (resolve_join _ _ Hp) in Hname. fold (file_key folder name) in Hname.
    rewrite node_at_file_key in Hname. apply negb_true_iff in Hname.
    rewrite Hother; [exact Hname|]. intros n _. apply file_key_not_prefix. }
  destruct (scaffold_run device_mac w fs1 Hmk Hdir Hfree)
    as (w' & Hrun & Hfs & Hex).
  exists fs1, w'. repeat split; assumption.
Qed.

End ScaffoldingRuns.

(** C9: for every MAC, when no regular file stands where the device
    directory or one of its parents has to be, and no directory stands
    where one of [device.pem.crt], [private.pem.key], [nvs.csv] has to
    be, the scaffolding returns [True], whether or not the directory and
    the files were there before.  Afterwards the device directory is a
    directory, the two credential files are empty, and [nvs.csv] holds
    exactly the header record and the three descriptor records, which name
    the paths of the two credential files.  A second run returns [True]
    again and leaves the file system of the first. *)
Theorem scaffolding_succeeds_and_is_idempotent (device_mac : string)
  (w : world) :
  let folder := device_folder device_mac in
  dirs_creatable (w_fs w) (resolve folder) = true ->
  Forall (fun name =>
            file_creatable (w_fs w) (os_path_join folder [name]) = true)
    files_to_create ->
  exists w1 w2,
    create_folder_and_files device_mac files_to_create (last files_to_create) w
    = (Ret true, w1) /\
    node_at (w_fs w1) (resolve folder) = Some Dir /\
    node_at (w_fs w1) (resolve (os_path_join folder ["device.pem.crt"]))
    = Some (File (Text [])) /\
    node_at (w_fs w1) (resolve (os_path_join folder ["private.pem.key"]))
    = Some (File (Text [])) /\
    node_at (w_fs w1) (resolve (os_path_join folder ["nvs.csv"]))
    = Some (File (Text
        [ ["key"; "type"; "encoding"; "value"];
          ["certs"; "namespace"; ""; ""];
          ["priv_key"; "file"; "string";
           os_path_join folder ["private.pem.key"]];
          ["certificate"; "file"; "string";
           os_path_join folder ["device.pem.crt"]] ])) /\
    create_folder_and_files device_mac files_to_create (last files_to_create) w1
    = (Ret true, w2) /\
    w_fs w2 = w_fs w1.
Proof.
  intros folder Hdirs Hfiles.
  change (last files_to_create) with (Some "nvs.csv").
  destruct (scaffold_once device_mac w Hdirs Hfiles)
    as (fs1 & w1 & Hrun1 & _ & Hfs1 & Hdir1 & Hmade1 & _).
  fold folder in Hfs1, Hdir1, Hmade1.
  destruct (scaffolded_from_files folder fs1) as (Hcrt & Hkey & Hcsv).
  assert (Hprefix : forall n, (n < length (resolve folder).2)%nat ->
            w_fs w1 !! ((resolve folder).1, [] ++ take (S n) (resolve folder).2)
            = Some Dir).
  { intros n Hn. rewrite Hfs1, scaffolded_from_other; [by apply Hmade1|].
    intros name Heq. symmetry in Heq. by apply file_key_not_prefix in Heq. }
  assert (Hdirs2 : dirs_creatable (w_fs w1) (resolve folder) = true).
  { unfold dirs_creatable. apply forallb_forall. intros n Hn.
    apply in_seq in Hn. destruct n as [|n]; [lia|].
    pose proof (Hprefix n ltac:(lia)) as Hp. cbn [app] in Hp.
    by rewrite Hp. }
  assert (Hfiles2 : Forall (fun name =>
            file_creatable (w_fs w1) (os_path_join folder [name]) = true)
            files_to_create).
  { unfold files_to_create, file_creatable.
    repeat constructor;
      rewrite resolve_join by (split; reflexivity);
      fold (file_key folder "device.pem.crt");
      fold (file_key folder "private.pem.key");
      fold (file_key folder "nvs.csv");
      rewrite node_at_file_key, Hfs1;
      [by rewrite Hcrt | by rewrite Hkey | by rewrite Hcsv]. }
  destruct (scaffold_once device_mac w1 Hdirs2 Hfiles2)
    as (fs2 & w2 & Hrun2 & Hmk2 & Hfs2 & _).
  fold folder in Hfs2, Hmk2.
  rewrite (makedirs_go_id _ _ _ _ Hprefix) in Hmk2. injection Hmk2 as <-.
  exists w1, w2. split; [exact Hrun1|].
  rewrite !resolve_join by (split; reflexivity).
  fold (file_key folder "device.pem.crt").
  fold (file_key folder "private.pem.key").
  fold (file_key folder "nvs.csv").
  rewrite !node_at_file_key.
  split. { rewrite Hfs1. unfold node_at.
           destruct (resolve folder).2 eqn:Hsegs; [reflexivity|].
           rewrite scaffolded_from_other.
           - unfold node_at in Hdir1. by rewrite Hsegs in Hdir1.
           - intros name Heq. symmetry in Heq.
             apply file_key_not_folder in Heq; [done|by rewrite Hsegs]. }
  split; [by rewrite Hfs1|]. split; [by rewrite Hfs1|].
  split; [by rewrite Hfs1|]. split; [exact Hrun2|].
  rewrite Hfs2, Hfs1. apply scaffolded_from_idempotent.
Qed.

Lemma scaffolding_succeeds_and_is_idempotent_witness :
  dirs_creatable (w_fs Sample.provisioned)
    (resolve (device_folder Sample.mac)) = true /\
  exists w1 w2,
    create_folder_and_files Sample.mac files_to_create (last files_to_create)
      Sample.provisioned = (Ret true, w1) /\
    node_at (w_fs w1) (resolve Sample.store)
    = Some (File (Text (scaffold_rows Sample.folder))) /\
    create_folder_and_files Sample.mac files_to_create (last files_to_create)
      w1 = (Ret true, w2) /\
    w_fs w2 = w_fs w1.
Proof.
  assert (Hdirs : dirs_creatable (w_fs Sample.provisioned)
                    (resolve (device_folder Sample.mac)) = true)
    by (vm_compute; reflexivity).
  assert (Hfiles : Forall (fun name =>
            file_creatable (w_fs Sample.provisioned)
              (os_path_join (device_folder Sample.mac) [name]) = true)
            files_to_create)
    by (repeat constructor; vm_compute; reflexivity).
  split; [exact Hdirs|].
  destruct (scaffolding_succeeds_and_is_idempotent Sample.mac
              Sample.provisioned Hdirs Hfiles)
    as (w1 & w2 & Hrun1 & _ & _ & _ & Hcsv & Hrun2 & Hsame).
  exists w1, w2. split; [exact Hrun1|]. split; [exact Hcsv|].
  split; [exact Hrun2|exact Hsame].
Defined.

(** * Further properties of the code *)

(** ** The device folder name *)

Lemma join_split_colon (s acc : string) :
  Str.join (Str.split_go ":" 0 acc s)
  = Str.rev_onto "" acc +:+ delete_char ":" s.
Proof.
  revert acc. induction s as [|c s IH]; intros acc.
  - cbn [Str.split_go Str.join delete_char]. reflexivity.
  - cbn [Str.split_go delete_char]. rewrite startswith_char.
    rewrite (Ascii.eqb_sym ":" c).
    destruct (Ascii.eqb c ":").
    + cbn [String.length Nat.pred Str.join]. rewrite IH.
      cbn [Str.rev_onto]. by rewrite str_app_nil_l.
    + rewrite IH. cbn [Str.rev_onto]. rewrite !rev_onto_app. reflexivity.
Qed.

Lemma delete_char_gone (c : ascii) (s : string) :
  Str.contains (String c "") (delete_char c s) = false.
Proof.
  induction s as [|x s IH]; [reflexivity|].
  cbn [delete_char]. destruct (Ascii.eqb x c) eqn:Hx; [exact IH|].
  cbn [Str.contains]. rewrite startswith_char, IH.
  rewrite Ascii.eqb_sym, Hx. reflexivity.
Qed.

(** X1: the folder name of a device is its MAC text without surrounding
    white space and with every colon deleted; the other characters stay,
    in order and in their case, and no colon is left. *)
Theorem mac_folder_deletes_colons (device_mac : string) :
  mac_folder device_mac = delete_char ":" (Str.strip device_mac) /\
  Str.contains ":" (mac_folder device_mac) = false.
Proof.
  assert (H : mac_folder device_mac = delete_char ":" (Str.strip device_mac)).
  { unfold mac_folder, Str.split. rewrite join_split_colon.
    apply str_app_nil_l. }
  split; [exact H|]. rewrite H. apply delete_char_gone.
Qed.

(** ** The format of the AES key *)






(** ** What the helpers and the workflows never do *)

(** X3: [execute_command] never raises.  For the empty command line it
    returns 1, prints one line on the error stream and spawns nothing; for
    any other it spawns exactly that command line, and the files are then
    those the process left (or untouched when the spawning call raised).
    It draws no random bytes. *)
Theorem execute_command_never_raises (E : env) (cmd : list string)
  (verbose : bool) (w : world) :
  exists code w',
    execute_command E cmd verbose w = (Ret code, w') /\
    w_drawn w' = w_drawn w /\
    match cmd with
    | [] =>
        code = 1 /\ w_fs w' = w_fs w /\
        w_trace w' = w_trace w ++ [Stderr "Error: No command provided."]
    | _ :: _ =>
        execs (w_trace w') = execs (w_trace w) ++ [cmd] /\
        w_fs w' = match spawn E cmd (w_fs w) with
                  | Ret c => c_fs c
                  | Raise _ => w_fs w
                  end
    end.
Proof.
  destruct cmd as [|arg0 rest].
  - eexists _, _. split; [reflexivity|]. repeat split.
  - destruct (execute_command_spec E (arg0 :: rest) verbose w)
      as (code & w' & Hrun & Hexecs & Hdrawn & Hcase); [discriminate|].
    exists code, w'. repeat split; try assumption.
    destruct (spawn E (arg0 :: rest) (w_fs w)); tauto.
Qed.

Section Frames.

Context (E : env).


End Frames.





(** X6: neither workflow raises: whatever the files and the tools do,
    [generate_cert_bin] and [flash_nvs] return an exit code, and each
    spawns at most one process. *)
Theorem workflows_never_raise (E : env) (device_mac version port : string)
  (w : world) :
  (exists code w',
     generate_cert_bin E device_mac version w = (Ret code, w') /\
     (length (execs (w_trace w')) <= S (length (execs (w_trace w))))%nat) /\
  (exists code w',
     flash_nvs E device_mac port w = (Ret code, w') /\
     (length (execs (w_trace w')) <= S (length (execs (w_trace w))))%nat).
Proof.
  split.
  - destruct (decide (exists_in w (store_path device_mac))) as [Hyes|Hno].
    + destruct (generate_cert_bin_present E device_mac version w Hyes)
        as (_ & _ & code & w' & _ & _ & _ & Hrun & Hexecs).
      exists code, w'. split; [exact Hrun|].
      rewrite Hexecs, length_app. simpl. lia.
    + rewrite (generate_cert_bin_missing E _ _ _ Hno). eexists _, _.
      split; [reflexivity|]. cbn [w_trace]. rewrite execs_app, length_app.
      simpl. lia.
  - destruct (decide (exists_in w (blob_path device_mac))) as [Hyes|Hno].
    + rewrite (flash_nvs_present E _ port _ Hyes).
      destruct (execute_command_spec E (flash_cmd port (blob_path device_mac))
                  true
                  (emit (Stdout ("Flashing " +:+ quoted (blob_path device_mac)
                     +:+ " to offset 0x9000 on port " +:+ port +:+ "...")) w))
        as (code & w' & Hrun & Hexecs & _); [discriminate|].
      exists code, w'. split; [exact Hrun|].
      rewrite Hexecs, execs_emit_stdout, length_app. simpl. lia.
    + rewrite (flash_nvs_missing E _ port _ Hno). eexists _, _.
      split; [reflexivity|]. unfold missing_blob_message.
      rewrite execs_emit_stdout. lia.
Qed.

(** ** The store under repeated insertions *)


Section Provisioning.

Context (E : env).



Lemma str_eqb_refl (s : string) : Str.eqb s s = true.
Proof. by apply str_eqb_eq. Qed.



End Provisioning.



(** ** MAC discovery on the tool's usual output *)

Section Extraction.










End Extraction.






(** ** [main] around MAC discovery *)

(** X11: discovery does not catch a failure to start the flashing tool.
    In the three behaviours that begin with discovery, [main] ends with
    that exception right after the banner: nothing else is printed, no
    file is touched. *)
Theorem discovery_failure_ends_main (E : env) (a : args) (w : world)
  (e : exn) :
  selected a = GenerateFlashAuto \/ selected a = ScaffoldAuto
  \/ selected a = DiscoverOnly ->
  spawn E (read_mac_cmd (the (a_port a))) (w_fs w) = Raise e ->
  main E a w
  = (Raise e,
     MkWorld (w_fs w)
       (w_trace w ++ banner a ++ [Exec (read_mac_cmd (the (a_port a)))])
       (w_drawn w)).
Proof.
  intros Hsel Hs. rewrite main_selects.
  assert (Hget : get_mac_address E (the (a_port a))
                   (MkWorld (w_fs w) (w_trace w ++ banner a) (w_drawn w))
                 = (Raise e,
                    MkWorld (w_fs w)
                      (w_trace w ++ banner a
                       ++ [Exec (read_mac_cmd (the (a_port a)))])
                      (w_drawn w))).
  { unfold get_mac_address, run_process. run. cbn [w_fs]. rewrite Hs.
    unfold emit. cbn [w_fs w_trace w_drawn]. by rewrite <- List.app_assoc. }
  destruct Hsel as [-> | [-> | ->]]; cbn [behaviour];
    unfold with_discovered_mac, bind; by rewrite Hget.
Qed.

Lemma discovery_failure_ends_main_witness :
  exists e,
    (main Sample.env_missing (MkArgs false (Some "/dev/ttyUSB0") None None)
       Sample.empty_world).1 = Raise e /\
    exn_cls e = FileNotFoundError.
Proof.
  eexists. split.
  - rewrite (discovery_failure_ends_main Sample.env_missing
               (MkArgs false (Some "/dev/ttyUSB0") None None)
               Sample.empty_world _
               ltac:(right; right; reflexivity) eq_refl).
    reflexivity.
  - reflexivity.
Defined.



(** ** Scaffolding when something is in the way *)

Section Blocked.

Lemma makedirs_go_blocked (abs : bool) (todo : list string) :
  forall (done : list string) (fs : filesystem) (n : nat),
    (n < length todo)%nat ->
    (forall m, (m < n)%nat ->
               fs !! (abs, done ++ take (S m) todo) = Some Dir) ->
    is_file (fs !! (abs, done ++ take (S n) todo)) = true ->
    exists e,
      makedirs_go abs done todo fs = (Raise e, fs) /\ is_OSError e = true.
Proof.
  induction todo as [|seg rest IH]; intros done fs n Hn Hdirs Hfile;
    [simpl in Hn; lia|].
  cbn [makedirs_go]. destruct n as [|n].
  - simpl in Hfile. rewrite take_0 in Hfile.
    destruct (fs !! (abs, done ++ [seg])) as [[|d]|]; try discriminate Hfile.
    destruct rest; eexists; split; reflexivity.
  - pose proof (Hdirs 0%nat ltac:(lia)) as H0. simpl in H0.
    rewrite take_0 in H0. rewrite H0.
    apply (IH (done ++ [seg]) fs n).
    + simpl in Hn. lia.
    + intros m Hm. rewrite <- List.app_assoc. apply (Hdirs (S m)). lia.
    + rewrite <- List.app_assoc. exact Hfile.
Qed.

Lemma blocked_at_spec (fs : filesystem) (k : rpath) (n : nat) :
  blocked_at fs k n = true ->
  (n < length k.2)%nat /\
  (forall m, (m < n)%nat -> fs !! (k.1, [] ++ take (S m) k.2) = Some Dir) /\
  is_file (fs !! (k.1, [] ++ take (S n) k.2)) = true.
Proof.
  unfold blocked_at. rewrite !andb_true_iff, Nat.ltb_lt, forallb_forall.
  intros [[Hn Hdirs] Hfile]. split; [exact Hn|]. split; [|exact Hfile].
  intros m Hm. specialize (Hdirs (S m)).
  cbn [app]. destruct (fs !! (k.1, take (S m) k.2)) as [[|d]|] eqn:Hk;
    [reflexivity| |];
    (assert (In (S m) (seq 1 n)) as Hin by (apply in_seq; lia);
     apply Hdirs in Hin; discriminate Hin).
Qed.

End Blocked.

Lemma startswith_app_self (p s : string) : Str.startswith p (p +:+ s) = true.
Proof.
  induction p as [|x p IH]; [reflexivity|].
  rewrite str_app_cons. cbn [Str.startswith]. by rewrite Ascii.eqb_refl, IH.
Qed.

(** X13: when a regular file stands where the device directory or one of
    its parents has to be (the directories before it being there), the
    scaffolding returns [False] whatever files it was asked for: it prints
    one line on the error stream, creates nothing and spawns nothing. *)
Theorem scaffolding_blocked_by_a_file (device_mac : string)
  (file_names : list string) (target : option string) (w : world) (n : nat) :
  blocked_at (w_fs w) (resolve (device_folder device_mac)) n = true ->
  exists w' message,
    create_folder_and_files device_mac file_names target w = (Ret false, w') /\
    w_fs w' = w_fs w /\
    w_trace w' = w_trace w ++ [Stderr message] /\
    Str.startswith
      ("Error: Could not create folder "
       +:+ quoted (device_folder device_mac) +:+ ". Reason: ") message = true.
Proof.
  intros Hb. apply blocked_at_spec in Hb as (Hn & Hdirs & Hfile).
  destruct (makedirs_go_blocked _ _ [] (w_fs w) n Hn Hdirs Hfile)
    as (e & Hmk & Hos).
  unfold create_folder_and_files, os_makedirs.
  fold (device_folder device_mac). run. rewrite Hmk. cbn beta iota.
  rewrite Hos. cbn [negb]. eexists _, _. split; [reflexivity|].
  split; [reflexivity|]. split; [reflexivity|].
  set (p := "Error: Could not create folder "
            +:+ quoted (device_folder device_mac) +:+ ". Reason: ").
  replace ("Error: Could not create folder "
           +:+ quoted (device_folder device_mac) +:+ ". Reason: "
           +:+ exn_str e) with (p +:+ exn_str e)
    by (subst p; by rewrite !str_app_assoc).
  apply startswith_app_self.
Qed.

Lemma scaffolding_blocked_by_a_file_witness :
  exists w',
    create_folder_and_files Sample.mac files_to_create (Some "nvs.csv")
      certs_is_a_file = (Ret false, w') /\
    w_fs w' = w_fs certs_is_a_file.
Proof.
  destruct (scaffolding_blocked_by_a_file Sample.mac files_to_create
              (Some "nvs.csv") certs_is_a_file 0
              ltac:(vm_compute; reflexivity))
    as (w' & message & Hrun & Hfs & _).
  exists w'. split; [exact Hrun|exact Hfs].
Defined.

Section PartialScaffolding.

Lemma forallb_pointwise {A} (f g : A -> bool) (l : list A) :
  (forall x, f x = g x) -> forallb f l = forallb g l.
Proof. intros H. induction l as [|x l IH]; [reflexivity|]. simpl. by rewrite H, IH. Qed.

Lemma open_w_dir (folder name : string) (w : world) :
  plain_name name ->
  is_dir (w_fs w !! file_key folder name) = true ->
  open_w (os_path_join folder [name]) w
  = (Raise (MkExn IsADirectoryError
              (errno_message "[Errno 21] Is a directory"
                 (os_path_join folder [name]))), w).
Proof.
  intros Hplain Hdir. unfold open_w.
  rewrite (resolve_join _ _ Hplain). fold (file_key folder name).
  rewrite node_at_file_key.
  destruct (w_fs w !! file_key folder name) as [[|d]|];
    [reflexivity|discriminate Hdir|discriminate Hdir].
Qed.

(** One round of the loop: the file is made unless a directory has its
    name; which paths are directories does not change. *)
Lemma create_empty_file_spec (folder name : string) (w : world) :
  plain_name name ->
  node_at (w_fs w) (resolve folder) = Some Dir ->
  exists w',
    create_empty_file (os_path_join folder [name]) w
    = (Ret (negb (is_dir (w_fs w !! file_key folder name))), w') /\
    (forall k, is_dir (w_fs w' !! k) = is_dir (w_fs w !! k)) /\
    (forall k, w_fs w !! k = Some (File (Text [])) ->
               w_fs w' !! k = Some (File (Text []))) /\
    (is_dir (w_fs w !! file_key folder name) = false ->
     w_fs w' !! file_key folder name = Some (File (Text []))) /\
    node_at (w_fs w') (resolve folder) = Some Dir /\
    execs (w_trace w') = execs (w_trace w).
Proof.
  intros Hplain Hfolder. unfold create_empty_file. run.
  destruct (is_dir (w_fs w !! file_key folder name)) eqn:Hd.
  - rewrite (open_w_dir _ _ _ Hplain Hd). cbn beta iota.
    cbn [is_OSError exn_cls]. run.
    eexists. split; [reflexivity|]. cbn [w_fs emit].
    repeat split; try done. apply execs_emit_stderr.
  - rewrite (open_w_file _ _ _ Hplain Hfolder Hd). cbn beta iota.
    eexists. split; [reflexivity|]. cbn [w_fs emit set_fs].
    split; [|split; [|split; [|split]]].
    + intros k. rewrite lookup_insert. case_decide; [by subst|reflexivity].
    + intros k Hk. rewrite lookup_insert. case_decide; [reflexivity|exact Hk].
    + intros _. apply lookup_insert_eq.
    + by rewrite node_at_folder_insert.
    + trace_simpl. reflexivity.
Qed.

Lemma create_files_flags (folder : string) (names : list string) :
  Forall plain_name names ->
  forall (acc : bool) (w : world),
    node_at (w_fs w) (resolve folder) = Some Dir ->
    exists w',
      create_files folder names acc w
      = (Ret (acc && forallb (fun name =>
                     negb (is_dir (w_fs w !! file_key folder name))) names),
         w') /\
      (forall k, is_dir (w_fs w' !! k) = is_dir (w_fs w !! k)) /\
      (forall k, w_fs w !! k = Some (File (Text [])) ->
                 w_fs w' !! k = Some (File (Text []))) /\
      (forall name, In name names ->
                    is_dir (w_fs w !! file_key folder name) = false ->
                    w_fs w' !! file_key folder name = Some (File (Text []))) /\
      node_at (w_fs w') (resolve folder) = Some Dir /\
      execs (w_trace w') = execs (w_trace w).
Proof.
  induction 1 as [|name names Hplain _ IH]; intros acc w Hfolder.
  - exists w. cbn [create_files forallb]. rewrite andb_true_r.
    repeat split; done.
  - cbn [create_files]. unfold bind.
    destruct (create_empty_file_spec folder name w Hplain Hfolder)
      as (w1 & Hrun1 & Hdir1 & Hkeep1 & Hmade1 & Hfolder1 & Hex1).
    rewrite Hrun1.
    destruct (IH (acc && negb (is_dir (w_fs w !! file_key folder name))) w1
                Hfolder1)
      as (w' & Hrun & Hdir & Hkeep & Hmade & Hfolder' & Hex).
    exists w'. rewrite Hrun. cbn [forallb].
    rewrite (forallb_pointwise _
               (fun name0 => negb (is_dir (w_fs w !! file_key folder name0))))
      by (intros x; by rewrite Hdir1).
    rewrite andb_assoc. split; [reflexivity|].
    split; [intros k; by rewrite Hdir, Hdir1|].
    split; [intros k Hk; by apply Hkeep, Hkeep1|].
    split; [|split; [exact Hfolder'|by rewrite Hex, Hex1]].
    intros other [<- | Hin] Hfree.
    + by apply Hkeep, Hmade1.
    + apply (Hmade other Hin). by rewrite Hdir1.
Qed.

(** The scaffolding up to the designated file: the directories made, the
    loop run. *)
Lemma scaffold_up_to_designated_file (device_mac : string) (w : world) :
  let folder := device_folder device_mac in
  dirs_creatable (w_fs w) (resolve folder) = true ->
  exists w2,
    create_folder_and_files device_mac files_to_create (Some "nvs.csv") w
    = (let '(r, w3) := write_designated_file folder w2 in
       (match r with
        | Ret _ =>
            Ret (forallb (fun name =>
                   negb (is_dir (w_fs w !! file_key folder name)))
                   files_to_create)
        | Raise e => Raise e
        end, w3)) /\
    (forall name, is_dir (w_fs w2 !! file_key folder name)
                  = is_dir (w_fs w !! file_key folder name)) /\
    (forall name, In name files_to_create ->
                  is_dir (w_fs w !! file_key folder name) = false ->
                  w_fs w2 !! file_key folder name = Some (File (Text []))) /\
    node_at (w_fs w2) (resolve folder) = Some Dir /\
    execs (w_trace w2) = execs (w_trace w).
Proof.
  intros folder Hdirs.
  destruct (makedirs_go_ok (resolve folder).1 (resolve folder).2 []
              (w_fs w) (dirs_creatable_spec _ _ Hdirs))
    as (fs1 & Hmk & Hmade & Hother).
  pose proof (folder_is_dir_after folder fs1 Hmade) as Hdir.
  assert (Hkeys : forall name, fs1 !! file_key folder name
                               = w_fs w !! file_key folder name).
  { intros name. apply Hother. intros n _. apply file_key_not_prefix. }
  set (w1 := emit (Stdout ("Successfully ensured folder exists: "
                           +:+ quoted folder)) (set_fs fs1 w)).
  destruct (create_files_flags folder files_to_create
              ltac:(repeat constructor; reflexivity) true w1 Hdir)
    as (w2 & Hrun & Hd2 & _ & Hmade2 & Hfolder2 & Hex2).
  exists w2. split; [|split; [|split; [|split]]].
  - unfold create_folder_and_files, os_makedirs.
    fold (device_folder device_mac). fold folder. run. rewrite Hmk.
    cbn beta iota. cbn [negb]. fold w1. rewrite Hrun. cbn beta iota.
    change (the (Some "nvs.csv")) with "nvs.csv".
    change (truthy_opt (Some "nvs.csv")) with true.
    rewrite bool_decide_eq_true_2
      by (unfold files_to_create; apply list_elem_of_In; simpl; tauto).
    cbn [andb negb]. unfold write_designated_file. run.
    rewrite (forallb_pointwise _
               (fun name => negb (is_dir (w_fs w !! file_key folder name))))
      by (intros x; subst w1; cbn [w_fs emit set_fs]; by rewrite Hkeys).
    destruct (open_w (os_path_join folder ["nvs.csv"]) w2) as [[[]|e] w3];
      reflexivity.
  - intros name. rewrite Hd2. subst w1. cbn [w_fs emit set_fs].
    by rewrite Hkeys.
  - intros name Hin Hfree. apply (Hmade2 name Hin).
    subst w1. cbn [w_fs emit set_fs]. by rewrite Hkeys.
  - exact Hfolder2.
  - rewrite Hex2. subst w1. trace_simpl. reflexivity.
Qed.

End PartialScaffolding.

Lemma file_creatable_key (fs : filesystem) (folder name : string) :
  plain_name name ->
  file_creatable fs (os_path_join folder [name])
  = negb (is_dir (fs !! file_key folder name)).
Proof.
  intros Hplain. unfold file_creatable.
  rewrite (resolve_join _ _ Hplain). fold (file_key folder name).
  by rewrite node_at_file_key.
Qed.

(** X14: a directory where [device.pem.crt] or [private.pem.key] has to
    be does not stop the scaffolding: with the directories creatable and
    [nvs.csv] writable, it returns whether both credential files could be
    made, and [nvs.csv] holds the header and the three descriptor records
    in either case. *)
Theorem scaffolding_goes_on_after_a_blocked_file (device_mac : string)
  (w : world) :
  let folder := device_folder device_mac in
  dirs_creatable (w_fs w) (resolve folder) = true ->
  file_creatable (w_fs w) (store_path device_mac) = true ->
  exists w',
    create_folder_and_files device_mac files_to_create (last files_to_create) w
    = (Ret (file_creatable (w_fs w) (os_path_join folder ["device.pem.crt"])
            && file_creatable (w_fs w)
                 (os_path_join folder ["private.pem.key"])), w') /\
    node_at (w_fs w') (resolve (store_path device_mac))
    = Some (File (Text (scaffold_rows folder))) /\
    execs (w_trace w') = execs (w_trace w).
Proof.
  intros folder Hdirs Hstore.
  change (last files_to_create) with (Some "nvs.csv").
  unfold store_path in *. fold folder in Hstore |- *.
  rewrite (file_creatable_key _ _ _ plain_nvs_csv) in Hstore.
  rewrite !file_creatable_key by (split; reflexivity).
  destruct (scaffold_up_to_designated_file device_mac w Hdirs)
    as (w2 & Hrun & Hd2 & _ & Hfolder2 & Hex2).
  fold folder in Hrun, Hd2, Hfolder2.
  assert (Hfree : is_dir (w_fs w2 !! file_key folder "nvs.csv") = false)
    by (rewrite Hd2; by apply negb_true_iff).
  rewrite Hrun. unfold write_designated_file. run.
  rewrite (open_w_file folder "nvs.csv" w2 plain_nvs_csv Hfolder2 Hfree).
  cbn beta iota. unfold csv_writerows.
  rewrite (resolve_join folder "nvs.csv" plain_nvs_csv).
  fold (file_key folder "nvs.csv").
  eexists. split; [|split].
  - unfold files_to_create. cbn [forallb]. rewrite Hstore, !andb_true_r.
    reflexivity.
  - cbn [w_fs emit set_fs]. rewrite node_at_file_key.
    apply lookup_insert_eq.
  - trace_simpl. exact Hex2.
Qed.

Lemma scaffolding_goes_on_after_a_blocked_file_witness :
  exists w',
    create_folder_and_files Sample.mac files_to_create (last files_to_create)
      certificate_is_a_directory = (Ret false, w') /\
    node_at (w_fs w') (resolve Sample.store)
    = Some (File (Text (scaffold_rows Sample.folder))).
Proof.
  destruct (scaffolding_goes_on_after_a_blocked_file Sample.mac
              certificate_is_a_directory
              ltac:(vm_compute; reflexivity) ltac:(vm_compute; reflexivity))
    as (w' & Hrun & Hstore & _).
  assert (Hflag : file_creatable (w_fs certificate_is_a_directory)
                    (os_path_join (device_folder Sample.mac)
                       ["device.pem.crt"])
                  && file_creatable (w_fs certificate_is_a_directory)
                       (os_path_join (device_folder Sample.mac)
                          ["private.pem.key"]) = false)
    by (vm_compute; reflexivity).
  rewrite Hflag in Hrun.
  exists w'. split; [exact Hrun|exact Hstore].
Defined.

(** X15: a directory where [nvs.csv] has to be makes the scaffolding
    raise: the loop reports it and goes on, but the designated file is
    then opened outside any [try], and the [IsADirectoryError] goes up to
    the caller.  Nothing was spawned. *)
Theorem scaffolding_raises_when_store_is_a_directory (device_mac : string)
  (w : world) :
  dirs_creatable (w_fs w) (resolve (device_folder device_mac)) = true ->
  file_creatable (w_fs w) (store_path device_mac) = false ->
  exists w',
    create_folder_and_files device_mac files_to_create (last files_to_create) w
    = (Raise (MkExn IsADirectoryError
                (errno_message "[Errno 21] Is a directory"
                   (store_path device_mac))), w') /\
    execs (w_trace w') = execs (w_trace w).
Proof.
  intros Hdirs Hstore.
  change (last files_to_create) with (Some "nvs.csv").
  unfold store_path in *. set (folder := device_folder device_mac) in *.
  rewrite (file_creatable_key _ _ _ plain_nvs_csv) in Hstore.
  apply negb_false_iff in Hstore.
  destruct (scaffold_up_to_designated_file device_mac w Hdirs)
    as (w2 & Hrun & Hd2 & _ & _ & Hex2).
  fold folder in Hrun, Hd2.
  assert (Hdir : is_dir (w_fs w2 !! file_key folder "nvs.csv") = true)
    by (by rewrite Hd2).
  rewrite Hrun. unfold write_designated_file. run.
  rewrite (open_w_dir folder "nvs.csv" w2 plain_nvs_csv Hdir).
  cbn beta iota. exists w2. split; [reflexivity|exact Hex2].
Qed.

Lemma scaffolding_raises_when_store_is_a_directory_witness :
  exists w',
    create_folder_and_files Sample.mac files_to_create (last files_to_create)
      store_is_a_directory
    = (Raise (MkExn IsADirectoryError
                "[Errno 21] Is a directory: 'certs/AABBCCDDEEFF/nvs.csv'"),
       w').
Proof.
  destruct (scaffolding_raises_when_store_is_a_directory Sample.mac
              store_is_a_directory
              ltac:(vm_compute; reflexivity) ltac:(vm_compute; reflexivity))
    as (w' & Hrun & _).
  exists w'. exact Hrun.
Defined.

(** ** The workflows together *)

(** X16: for every MAC, scaffolding followed by generation works: after a
    successful scaffolding the generation does not refuse, the generator
    is started in a file system where the store holds the four scaffolded
    records followed by the [aes_key] and the [hv] record, and it is the
    only process spawned. *)
Theorem scaffold_then_generate (E : env) (device_mac version : string)
  (w : world) :
  let folder := device_folder device_mac in
  dirs_creatable (w_fs w) (resolve folder) = true ->
  Forall (fun name =>
            file_creatable (w_fs w) (os_path_join folder [name]) = true)
    files_to_create ->
  exists w1 w_gen code w2,
    create_folder_and_files device_mac files_to_create (last files_to_create) w
    = (Ret true, w1) /\
    generate_cert_bin E device_mac version w1 = (Ret code, w2) /\
    execute_command E
      (generator_cmd folder (store_path device_mac)) true w_gen
    = (Ret code, w2) /\
    node_at (w_fs w_gen) (resolve (store_path device_mac))
    = Some (File (Text
        (scaffold_rows folder
         ++ [ ["aes_key"; "data"; "string";
               hex (map (urandom E) (seq (w_drawn w1) 16))];
              ["hv"; "data"; "string"; version] ]))) /\
    execs (w_trace w2)
    = execs (w_trace w) ++ [generator_cmd folder (store_path device_mac)].
Proof.
  intros folder Hdirs Hfiles.
  change (last files_to_create) with (Some "nvs.csv").
  destruct (scaffold_once device_mac w Hdirs Hfiles)
    as (fs1 & w1 & Hrun1 & _ & Hfs1 & _ & _ & Hex1).
  fold folder in Hfs1.
  destruct (scaffolded_from_files folder fs1) as (_ & _ & Hcsv).
  assert (Hnode : node_at (w_fs w1) (resolve (store_path device_mac))
                  = Some (File (Text (scaffold_rows folder)))).
  { unfold store_path. fold folder.
    rewrite (resolve_join _ _ plain_nvs_csv). fold (file_key folder "nvs.csv").
    by rewrite node_at_file_key, Hfs1. }
  assert (Hyes : exists_in w1 (store_path device_mac))
    by (unfold exists_in; rewrite Hnode; eauto).
  destruct (generate_cert_bin_present E device_mac version w1 Hyes)
    as (wa & wb & code & w2 & H1 & H2 & H3 & Hrun2 & Hex2).
  destruct (both_insertions E (store_path device_mac) version
              (scaffold_rows folder)
              (emit (Stdout ("csv: " +:+ store_path device_mac)) w1) Hnode)
    as (wa' & wb' & H1' & H2' & Hfsb).
  { repeat constructor; eexists _, _; (split; [reflexivity|discriminate]). }
  { repeat constructor; eexists _, _; (split; [reflexivity|discriminate]). }
  rewrite H1 in H1'. injection H1' as <-.
  rewrite H2 in H2'. injection H2' as <-.
  eexists w1, _, code, w2. split; [exact Hrun1|]. split; [exact Hrun2|].
  split; [exact H3|]. split.
  - cbn [w_fs emit]. rewrite Hfsb. cbn [w_fs w_drawn emit].
    eapply node_at_insert_same, Hnode.
  - rewrite Hex2, Hex1. reflexivity.
Qed.

Lemma scaffold_then_generate_witness :
  exists w1 code w2,
    create_folder_and_files Sample.mac files_to_create (last files_to_create)
      Sample.empty_world = (Ret true, w1) /\
    generate_cert_bin (Sample.env_exit 0) Sample.mac "1.0" w1 = (Ret code, w2) /\
    execs (w_trace w2) = [example_generator_cmd].
Proof.
  destruct (scaffold_then_generate (Sample.env_exit 0) Sample.mac "1.0"
              Sample.empty_world
              ltac:(vm_compute; reflexivity)
              ltac:(repeat constructor; vm_compute; reflexivity))
    as (w1 & w_gen & code & w2 & Hrun1 & Hrun2 & _ & _ & Hexecs).
  exists w1, code, w2. repeat split; assumption.
Defined.

(** X17: in the generate-then-flash behaviour with the given MAC, [main]
    never raises, and the flasher is never started unless the generator
    was started before it and exited with 0: the processes spawned are
    none (the store is missing), the generator alone, or the generator
    followed by the flasher. *)
Theorem flasher_only_after_successful_generation (E : env) (a : args)
  (w : world) :
  selected a = GenerateFlashExplicit ->
  let gen := generator_cmd (device_folder (the (a_mac a)))
               (store_path (the (a_mac a))) in
  let flash := flash_cmd (the (a_port a)) (blob_path (the (a_mac a))) in
  exists w' spawned,
    main E a w = (Ret tt, w') /\
    execs (w_trace w') = execs (w_trace w) ++ spawned /\
    (spawned = [] \/ spawned = [gen] \/
     (spawned = [gen; flash] /\
      exists fs c, spawn E gen fs = Ret c /\ c_returncode c = 0)).
Proof.
  intros Hsel gen flash. rewrite main_selects, Hsel. cbn [behaviour].
  set (wb := MkWorld (w_fs w) (w_trace w ++ banner a) (w_drawn w)).
  assert (Hb : execs (w_trace wb) = execs (w_trace w)) by apply execs_banner.
  set (mac := the (a_mac a)) in *. set (port := the (a_port a)) in *.
  unfold generate_then_flash. unfold bind at 1.
  destruct (decide (exists_in wb (store_path mac))) as [Hyes|Hno].
  - destruct (generate_cert_bin_present E mac (the (a_hv a)) wb Hyes)
      as (w1 & w2 & code & w3 & _ & _ & H3 & Hrun & Hexecs).
    fold gen in H3, Hexecs. rewrite Hrun. cbn [when]. run.
    destruct (execute_command_spec E gen true
                (emit (Stdout ("Generating certificate for "
                               +:+ device_folder mac +:+ "...")) w2))
      as (code' & w3' & H3' & _ & _ & Hcase); [discriminate|].
    rewrite H3 in H3'. injection H3' as <- <-.
    destruct (code =? 0) eqn:Hzero.
    + apply Z.eqb_eq in Hzero.
      destruct (decide (exists_in (emit (Stdout "") w3) (blob_path mac)))
        as [Hblob|Hblob].
      * rewrite (flash_nvs_present E _ port _ Hblob). fold flash.
        destruct (execute_command_spec E flash true
                    (emit (Stdout ("Flashing " +:+ quoted (blob_path mac)
                       +:+ " to offset 0x9000 on port " +:+ port +:+ "..."))
                       (emit (Stdout "") w3)))
          as (fc & w4 & H4 & Hx4 & _); [discriminate|].
        rewrite H4. exists w4, [gen; flash]. split; [reflexivity|]. split.
        -- rewrite Hx4, !execs_emit_stdout, Hexecs, Hb, <- List.app_assoc.
           reflexivity.
        -- right. right. split; [reflexivity|].
           destruct (spawn E gen _) as [c|e] eqn:Hs.
           ++ eexists _, c. split; [exact Hs|]. destruct Hcase as [Hc _].
              congruence.
           ++ destruct Hcase as [Hc _]. congruence.
      * rewrite (flash_nvs_missing E _ port _ Hblob).
        eexists _, [gen]. split; [reflexivity|]. split; [|auto].
        unfold missing_blob_message.
        by rewrite !execs_emit_stdout, Hexecs, Hb.
    + eexists _, [gen]. split; [reflexivity|]. split; [|auto].
      by rewrite execs_emit_stdout, Hexecs, Hb.
  - rewrite (generate_cert_bin_missing E _ _ _ Hno). cbn [when]. run.
    cbn [Z.eqb]. eexists _, []. split; [reflexivity|]. split; [|auto].
    rewrite execs_emit_stdout. cbn [w_trace].
    rewrite execs_app, Hb, app_nil_r.
    unfold missing_store_messages. rewrite app_nil_r. reflexivity.
Qed.

Lemma flasher_only_after_successful_generation_witness :
  exists w',
    main (Sample.env_exit 1) (example_args "/dev/ttyUSB0" false)
      Sample.scaffolded = (Ret tt, w').
Proof.
  destruct (flasher_only_after_successful_generation (Sample.env_exit 1)
              (example_args "/dev/ttyUSB0" false) Sample.scaffolded eq_refl)
    as (w' & spawned & Hrun & _).
  exists w'. exact Hrun.
Defined.
